(** * Tic-tac-toe: the win evaluator, the client guards and the match rules

    A shallow embedding of the TypeScript sources of the repository:
    - [frontend/src/types/game.ts]: the shared data types;
    - [tests/server/match.test.ts]: [checkWinCondition], the copy of the
      server's win evaluator kept with the unit tests;
    - the GameBoard component (kept in [frontend/src/components]):
      [handleCellClick];
    - the useGameState hook: [handleMessage] and [makeMove].

    The server module [match.ts] is not among the sources: the Board
    Model operations [apply] and [evaluate], the transitions
    [submitMove], [checkTimeout], [markAbandoned] and the session step
    are taken from the specification and marked as such.

    JavaScript indexing is modelled as it behaves: reading an index that
    an array does not have gives [undefined] (here [None]), and reading
    an index of [undefined] throws a [TypeError].  Coordinates are
    integers ([Z]); fractional numbers are outside the model. *)

From Stdlib Require Import ZArith Lia Bool.
From stdpp Require Import base option list strings.

Open Scope Z_scope.

(** ** Data types ([types/game.ts]) *)

Module Types.

(** [type PlayerSymbol = 'X' | 'O'] *)
Inductive PlayerSymbol : Type := X | O.

(** [type CellValue = '' | PlayerSymbol] *)
Inductive CellValue : Type := Empty | Mark (s : PlayerSymbol).

(** [enum MatchState] *)
Inductive MatchState : Type := WAITING | PLAYING | FINISHED | ABANDONED.

(** [enum GameResult] *)
Inductive GameResult : Type := X_WINS | O_WINS | DRAW | ONGOING.

(** [enum ServerMessageType] *)
Inductive ServerMessageType : Type :=
  | GAME_STATE | MOVE_ACCEPTED | MOVE_REJECTED | GAME_OVER
  | PLAYER_JOINED | PLAYER_LEFT | ERROR | TIMEOUT_WARNING.

#[global] Instance PlayerSymbol_eq_dec : EqDecision PlayerSymbol.
Proof. solve_decision. Defined.
#[global] Instance CellValue_eq_dec : EqDecision CellValue.
Proof. solve_decision. Defined.
#[global] Instance MatchState_eq_dec : EqDecision MatchState.
Proof. solve_decision. Defined.
#[global] Instance GameResult_eq_dec : EqDecision GameResult.
Proof. solve_decision. Defined.

(** [{ row: number; col: number }] *)
Record Cell : Type := { row : Z; col : Z }.

#[global] Instance Cell_eq_dec : EqDecision Cell.
Proof. solve_decision. Defined.

(** [interface Player] *)
Record Player : Type := {
  userId : string;
  username : string;
  symbol : PlayerSymbol;
  present : bool
}.

(** [players: { X?: Player; O?: Player }] *)
Record Players : Type := { playerX : option Player; playerO : option Player }.

(** [type BoardState]: an array of rows.  The TypeScript type fixes three
    rows of three cells; at run time it is an ordinary array, so the
    shape is the predicate [isBoardState] below. *)
Abbreviation BoardState := (list (list CellValue)).

(** [interface GameState] *)
Record GameState : Type := {
  board : BoardState;
  currentPlayer : PlayerSymbol;
  players : Players;
  state : MatchState;
  result : GameResult;
  moveCount : Z;
  lastMoveTime : Z;
  winnerCells : option (list Cell);
  timeoutWarningSent : option bool
}.

(** [gameState.players[sym]] *)
Definition playerOf (ps : Players) (sym : PlayerSymbol) : option Player :=
  match sym with X => playerX ps | O => playerO ps end.

Definition isBoardState (b : BoardState) : bool :=
  bool_decide (length b = 3%nat) && forallb (fun r => bool_decide (length r = 3%nat)) b.

(** [a[i]] on a JavaScript array: [None] stands for [undefined]. *)
Definition jsIndex {A : Type} (a : list A) (i : Z) : option A :=
  if decide (0 <= i) then a !! Z.to_nat i else None.

(** The value of [board[r][c]] when no exception is raised. *)
Definition cellAt (b : BoardState) (r c : Z) : option CellValue :=
  match jsIndex b r with
  | Some cells => jsIndex cells c
  | None => None
  end.

Definition inGrid (r c : Z) : Prop := 0 <= r <= 2 /\ 0 <= c <= 2.

End Types.

Export Types.

(** ** A run of JavaScript code that indexes the board

    A run yields the list of [board[r][c]] expressions it evaluated, in
    order, and either a value or nothing when a [TypeError] was thrown. *)

Module Js.

Definition Run (A : Type) : Type := (list Cell * option A)%type.

Definition ret {A : Type} (a : A) : Run A := ([], Some a).

Definition bind {A B : Type} (m : Run A) (k : A -> Run B) : Run B :=
  match m with
  | (t, None) => (t, None)
  | (t, Some a) => let '(t', o) := k a in (t ++ t', o)
  end.

Definition reads {A : Type} (m : Run A) : list Cell := fst m.
Definition value {A : Type} (m : Run A) : option A := snd m.

End Js.

Notation "'let*' x ':=' m 'in' k" := (Js.bind m (fun x => k))
  (at level 10, x name, m at level 100, k at level 200).

(** ** The win evaluator ([tests/server/match.test.ts], lines 19-74) *)

Module Match.

Import Js.

(** [{ won: boolean; winningCells?: Array<{row, col}> }] *)
Record WinResult : Type := { won : bool; winningCells : option (list Cell) }.

(** The expression [board[r][c]]. *)
Definition readCell (b : BoardState) (r c : Z) : Run (option CellValue) :=
  match jsIndex b r with
  | Some cells => ([{| row := r; col := c |}], Some (jsIndex cells c))
  | None => ([{| row := r; col := c |}], None)
  end.

(** [v === symbol] for a value read from the board. *)
Definition strictEq (v : option CellValue) (sym : PlayerSymbol) : bool :=
  bool_decide (v = Some (Mark sym)).

(** [board[r][c] === symbol] *)
Definition cellIs (b : BoardState) (r c : Z) (sym : PlayerSymbol) : Run bool :=
  let* v := readCell b r c in ret (strictEq v sym).

(** [p && q]: [q] is evaluated only when [p] is true. *)
Definition andAlso (p q : Run bool) : Run bool :=
  let* x := p in if x then q else ret false.

Definition line (a b c : Cell) : list Cell := [a; b; c].

Definition checkWinCondition (b : BoardState) (lastRow lastCol : Z)
    (sym : PlayerSymbol) : Run WinResult :=
  (* Check row *)
  let* inRow := andAlso (andAlso (cellIs b lastRow 0 sym) (cellIs b lastRow 1 sym))
                        (cellIs b lastRow 2 sym) in
  if inRow then
    ret {| won := true;
           winningCells := Some (line {| row := lastRow; col := 0 |}
                                      {| row := lastRow; col := 1 |}
                                      {| row := lastRow; col := 2 |}) |}
  else
  (* Check column *)
  let* inCol := andAlso (andAlso (cellIs b 0 lastCol sym) (cellIs b 1 lastCol sym))
                        (cellIs b 2 lastCol sym) in
  if inCol then
    ret {| won := true;
           winningCells := Some (line {| row := 0; col := lastCol |}
                                      {| row := 1; col := lastCol |}
                                      {| row := 2; col := lastCol |}) |}
  else
  (* Check main diagonal *)
  let* inDiag := andAlso (andAlso (andAlso (ret (bool_decide (lastRow = lastCol)))
                                           (cellIs b 0 0 sym))
                                  (cellIs b 1 1 sym))
                         (cellIs b 2 2 sym) in
  if inDiag then
    ret {| won := true;
           winningCells := Some (line {| row := 0; col := 0 |}
                                      {| row := 1; col := 1 |}
                                      {| row := 2; col := 2 |}) |}
  else
  (* Check anti-diagonal *)
  let* inAnti := andAlso (andAlso (andAlso (ret (bool_decide (lastRow + lastCol = 2)))
                                           (cellIs b 0 2 sym))
                                  (cellIs b 1 1 sym))
                         (cellIs b 2 0 sym) in
  if inAnti then
    ret {| won := true;
           winningCells := Some (line {| row := 0; col := 2 |}
                                      {| row := 1; col := 1 |}
                                      {| row := 2; col := 0 |}) |}
  else
    ret {| won := false; winningCells := None |}.

(** The verdict alone: [checkWinCondition(...).won], when the call returns. *)
Definition wonBy (b : BoardState) (lastRow lastCol : Z) (sym : PlayerSymbol) : option bool :=
  won <$> value (checkWinCondition b lastRow lastCol sym).

End Match.

Import Match.

(** ** Lines of the grid *)

Module Lines.

Definition rowLine (r : Z) : list Cell :=
  [ {| row := r; col := 0 |}; {| row := r; col := 1 |}; {| row := r; col := 2 |} ].
Definition colLine (c : Z) : list Cell :=
  [ {| row := 0; col := c |}; {| row := 1; col := c |}; {| row := 2; col := c |} ].
Definition mainDiagonal : list Cell :=
  [ {| row := 0; col := 0 |}; {| row := 1; col := 1 |}; {| row := 2; col := 2 |} ].
Definition antiDiagonal : list Cell :=
  [ {| row := 0; col := 2 |}; {| row := 1; col := 1 |}; {| row := 2; col := 0 |} ].

(** The eight lines of the grid: rows, columns, the two diagonals. *)
Definition allLines : list (list Cell) :=
  [ rowLine 0; rowLine 1; rowLine 2; colLine 0; colLine 1; colLine 2;
    mainDiagonal; antiDiagonal ].

(** The lines examined after a move at (lastRow, lastCol), in the order
    of examination: its row, its column, the main diagonal only if
    lastRow = lastCol, the anti-diagonal only if lastRow + lastCol = 2. *)
Definition linesThrough (lastRow lastCol : Z) : list (list Cell) :=
  [ rowLine lastRow; colLine lastCol ]
  ++ (if bool_decide (lastRow = lastCol) then [ mainDiagonal ] else [])
  ++ (if bool_decide (lastRow + lastCol = 2) then [ antiDiagonal ] else []).

(** The cell at [p] holds [sym]. *)
Definition holds (b : BoardState) (sym : PlayerSymbol) (p : Cell) : bool :=
  bool_decide (cellAt b (row p) (col p) = Some (Mark sym)).

(** A complete 3-in-a-line of [sym]. *)
Definition isComplete (b : BoardState) (sym : PlayerSymbol) (l : list Cell) : bool :=
  forallb (holds b sym) l.

(** The naive evaluator: scan all eight lines for a complete one. *)
Definition scanAllLines (b : BoardState) (sym : PlayerSymbol) : bool :=
  existsb (isComplete b sym) allLines.

(** The result [checkWinCondition] reports for the first complete line
    of a list of candidates. *)
Definition verdict (first : option (list Cell)) : WinResult :=
  match first with
  | Some l => {| won := true; winningCells := Some l |}
  | None => {| won := false; winningCells := None |}
  end.

End Lines.

Import Lines.

(** ** Board Model (spec section 4.1)

    The server's [match.ts] is not among the sources; its board
    operations are taken from the specification. *)

Module BoardModel.

(** The rejections of the error taxonomy (spec section 7). *)
Inductive Rejection : Type :=
  | OutOfBounds | CellOccupied | NotYourTurn | MatchAlreadyFinished.

#[global] Instance Rejection_eq_dec : EqDecision Rejection.
Proof. solve_decision. Defined.

Inductive Applied : Type :=
  | Placed (b' : BoardState)
  | Refused (e : Rejection).

(** The board with [v] written at (r, c): a fresh copy in which only
    that cell differs.  It is used on cells of the grid only. *)
Definition writeCell (b : BoardState) (r c : Z) (v : CellValue) : BoardState :=
  match jsIndex b r with
  | Some cells => <[ Z.to_nat r := <[ Z.to_nat c := v ]> cells ]> b
  | None => b
  end.

(** Modelled from the spec: [apply], the move application of the Board
    Model, missing with [match.ts].  It fails with [OutOfBounds] if row
    or col is outside [0,2], fails with [CellOccupied] if the target
    cell is non-empty, and otherwise returns the board with exactly
    that cell set. *)
Definition apply (b : BoardState) (r c : Z) (sym : PlayerSymbol) : Applied :=
  if negb (bool_decide (0 <= r <= 2)) || negb (bool_decide (0 <= c <= 2)) then
    Refused OutOfBounds
  else if negb (bool_decide (cellAt b r c = Some Empty)) then
    Refused CellOccupied
  else
    Placed (writeCell b r c (Mark sym)).

Inductive Evaluation : Type :=
  | Win (l : list Cell)
  | Draw
  | Ongoing.

Definition allCells : list Cell :=
  rowLine 0 ++ rowLine 1 ++ rowLine 2.

Definition occupied (b : BoardState) (p : Cell) : bool :=
  match cellAt b (row p) (col p) with
  | Some (Mark _) => true
  | _ => false
  end.

(** All 9 cells are occupied. *)
Definition isFull (b : BoardState) : bool := forallb (occupied b) allCells.

(** Modelled from the spec: [evaluate], the rule evaluator of the Board
    Model, missing with [match.ts] (of which [checkWinCondition] is the
    win-detection part).  It returns the first complete line among the
    lines through the just-played cell; if there is none and all 9 cells
    are occupied, [Draw]; otherwise [Ongoing]. *)
Definition evaluate (b : BoardState) (lastRow lastCol : Z) (sym : PlayerSymbol) : Evaluation :=
  match find (isComplete b sym) (linesThrough lastRow lastCol) with
  | Some l => Win l
  | None => if isFull b then Draw else Ongoing
  end.

End BoardModel.

Import BoardModel.

(** ** Match State Machine (spec section 4.2)

    The state is the [GameState] of [types/game.ts]; the transitions are
    the server's, taken from the specification. *)

Module MatchMachine.

Definition other (sym : PlayerSymbol) : PlayerSymbol :=
  match sym with X => O | O => X end.

(** The result recorded when [sym] wins. *)
Definition winOf (sym : PlayerSymbol) : GameResult :=
  match sym with X => X_WINS | O => O_WINS end.

(** Terminal phases: [FINISHED] and [ABANDONED]. *)
Definition isTerminal (phase : MatchState) : bool :=
  match phase with
  | FINISHED | ABANDONED => true
  | WAITING | PLAYING => false
  end.

Inductive Outcome : Type :=
  | Accepted
  | Rejected (e : Rejection)
  | Forfeited
  | NoChange.

Definition hasIdentity (p : option Player) (id : string) : bool :=
  match p with
  | Some q => bool_decide (userId q = id)
  | None => false
  end.

(** The symbol assigned to the participant with identity [id]. *)
Definition symbolOf (st : GameState) (id : string) : option PlayerSymbol :=
  if hasIdentity (playerX (players st)) id then Some X
  else if hasIdentity (playerO (players st)) id then Some O
  else None.

(** Modelled from the spec: [submitMove], missing with [match.ts].  A
    match in a terminal phase rejects with [MatchAlreadyFinished]
    (sections 4.3, 7 and 8); otherwise a move with row or col outside
    [0,2] is rejected with [OutOfBounds], for all such coordinates
    (section 8); otherwise [NotYourTurn] if the phase is not Playing or
    the participant's symbol is not the active turn, and [CellOccupied]
    per the Board Model (section 4.2); an accepted move increments the
    move counter, records [lastMoveTime = now] and is evaluated from the
    just-played cell. *)
Definition submitMove (st : GameState) (id : string) (r c now : Z) : GameState * Outcome :=
  if isTerminal (state st) then (st, Rejected MatchAlreadyFinished)
  else if negb (bool_decide (0 <= r <= 2)) || negb (bool_decide (0 <= c <= 2)) then
    (st, Rejected OutOfBounds)
  else if negb (bool_decide (state st = PLAYING))
          || negb (bool_decide (symbolOf st id = Some (currentPlayer st))) then
    (st, Rejected NotYourTurn)
  else
    match apply (board st) r c (currentPlayer st) with
    | Refused e => (st, Rejected e)
    | Placed b' =>
        match evaluate b' r c (currentPlayer st) with
        | Win l =>
            ({| board := b'; currentPlayer := currentPlayer st; players := players st;
                state := FINISHED; result := winOf (currentPlayer st);
                moveCount := moveCount st + 1; lastMoveTime := now;
                winnerCells := Some l;
                timeoutWarningSent := timeoutWarningSent st |}, Accepted)
        | Draw =>
            ({| board := b'; currentPlayer := currentPlayer st; players := players st;
                state := FINISHED; result := DRAW;
                moveCount := moveCount st + 1; lastMoveTime := now;
                winnerCells := winnerCells st;
                timeoutWarningSent := timeoutWarningSent st |}, Accepted)
        | Ongoing =>
            ({| board := b'; currentPlayer := other (currentPlayer st); players := players st;
                state := state st; result := result st;
                moveCount := moveCount st + 1; lastMoveTime := now;
                winnerCells := winnerCells st;
                timeoutWarningSent := timeoutWarningSent st |}, Accepted)
        end
    end.

(** Modelled from the spec: [checkTimeout], missing with [match.ts].  If
    the phase is Playing and [now - lastMoveTime >= deadlineSeconds] the
    participant on turn forfeits: the phase becomes Finished, the result
    is the other symbol's win and no winning line is recorded.  A match
    in a terminal phase rejects with [MatchAlreadyFinished]; anything
    else is a no-op. *)
Definition checkTimeout (st : GameState) (now deadlineSeconds : Z) : GameState * Outcome :=
  if isTerminal (state st) then (st, Rejected MatchAlreadyFinished)
  else if bool_decide (state st = PLAYING)
          && bool_decide (now - lastMoveTime st >= deadlineSeconds) then
    ({| board := board st; currentPlayer := currentPlayer st; players := players st;
        state := FINISHED; result := winOf (other (currentPlayer st));
        moveCount := moveCount st; lastMoveTime := lastMoveTime st;
        winnerCells := None;
        timeoutWarningSent := timeoutWarningSent st |}, Forfeited)
  else (st, NoChange).

(** Modelled from the spec: [markAbandoned], missing with [match.ts].
    If the phase is Playing or Waiting the match becomes Abandoned. *)
Definition markAbandoned (st : GameState) (departed : string) : GameState :=
  if isTerminal (state st) then st
  else
    {| board := board st; currentPlayer := currentPlayer st; players := players st;
       state := ABANDONED; result := result st;
       moveCount := moveCount st; lastMoveTime := lastMoveTime st;
       winnerCells := winnerCells st;
       timeoutWarningSent := timeoutWarningSent st |}.

End MatchMachine.

Import MatchMachine.

(** ** Match Session (spec section 4.3)

    The authority loop handles one event at a time; what it sends out
    is the list of effects of a step. *)

Module Session.

Inductive Event : Type :=
  | MoveSubmitted (id : string) (r c now : Z)
  | TimerTick (now : Z)
  | Abandon (id : string).

Inductive Effect : Type :=
  | Broadcast (snapshot : GameState)           (* to every attached participant *)
  | Report (to : string) (e : Rejection)       (* to the submitting participant only *)
  | ResultSink (final : GameState).            (* the terminal call *)

Definition isSinkCall (e : Effect) : bool :=
  match e with ResultSink _ => true | _ => false end.

Definition isBroadcast (e : Effect) : bool :=
  match e with Broadcast _ => true | _ => false end.

(** What follows a transition that changed the state: the snapshot is
    broadcast, and a terminal transition invokes the Result Sink. *)
Definition announce (st' : GameState) : list Effect :=
  Broadcast st' :: (if isTerminal (state st') then [ ResultSink st' ] else []).

(** Modelled from the spec: one step of the authority loop, missing with
    [match.ts].  A rejected move is reported to its submitter and
    nothing is broadcast; a rejected or idle timer tick has nobody to
    report to. *)
Definition process (deadlineSeconds : Z) (st : GameState) (ev : Event)
    : GameState * list Effect :=
  match ev with
  | MoveSubmitted id r c now =>
      match submitMove st id r c now with
      | (st', Accepted) => (st', announce st')
      | (st', Rejected e) => (st', [ Report id e ])
      | (st', _) => (st', [])
      end
  | TimerTick now =>
      match checkTimeout st now deadlineSeconds with
      | (st', Forfeited) => (st', announce st')
      | (st', _) => (st', [])
      end
  | Abandon id =>
      if isTerminal (state st) then (st, [])
      else let st' := markAbandoned st id in (st', announce st')
  end.

(** The ordered queue: events are processed to completion, in order. *)
Fixpoint run (deadlineSeconds : Z) (st : GameState) (evs : list Event)
    : GameState * list Effect :=
  match evs with
  | [] => (st, [])
  | ev :: rest =>
      let '(st1, out1) := process deadlineSeconds st ev in
      let '(st2, out2) := run deadlineSeconds st1 rest in
      (st2, out1 ++ out2)
  end.

End Session.

Import Session.

(** ** GameBoard component ([components/GameBoard.tsx]) *)

Module GameBoard.

(** [interface GameBoardProps], past the [!gameState] early return and
    without the callback, whose invocation is the outcome below. *)
Record GameBoardProps : Type := {
  gameState : GameState;
  currentUserId : option string;      (* [string | null] *)
  disabled : option bool              (* [disabled?: boolean] *)
}.

Inductive Click : Type :=
  | Invoked (r c : Z)     (* [onCellClick(row, col)] was called *)
  | Blocked               (* returned without calling it *)
  | Threw.                (* [board[row]] is undefined: TypeError *)

(** [if (disabled)]: [undefined] and [false] are falsy. *)
Definition truthy (flag : option bool) : bool :=
  match flag with Some true => true | _ => false end.

Definition isPlaying (props : GameBoardProps) : bool :=
  bool_decide (state (gameState props) = PLAYING).

(** [gameState.players[gameState.currentPlayer]] *)
Definition currentPlayerOf (props : GameBoardProps) : option Player :=
  playerOf (players (gameState props)) (currentPlayer (gameState props)).

(** [currentPlayer?.userId === currentUserId && isPlaying]; a missing
    player gives [undefined], which is not [===] to a string or [null]. *)
Definition isMyTurn (props : GameBoardProps) : bool :=
  match currentPlayerOf props with
  | Some p => bool_decide (currentUserId props = Some (userId p))
  | None => false
  end && isPlaying props.

(** [handleCellClick]: its first statement logs [board[row][col]], which
    throws when the row does not exist. *)
Definition handleCellClick (props : GameBoardProps) (r c : Z) : Click :=
  match jsIndex (board (gameState props)) r with
  | None => Threw
  | Some cells =>
      if truthy (disabled props) then Blocked
      else if negb (isMyTurn props) then Blocked
      else if negb (bool_decide (jsIndex cells c = Some Empty)) then Blocked
      else Invoked r c
  end.

(** The three conditions under which a click goes through: the board is
    not disabled, the match is PLAYING and the user is the player on
    turn, the clicked cell is the empty string. *)
Definition clickAllowed (props : GameBoardProps) (r c : Z) : Prop :=
  disabled props <> Some true
  /\ (state (gameState props) = PLAYING
      /\ exists p, currentPlayerOf props = Some p /\ currentUserId props = Some (userId p))
  /\ cellAt (board (gameState props)) r c = Some Empty.

End GameBoard.

(** ** useGameState hook ([hooks/useGameState.ts]) *)

Module UseGameState.

(** The three React state cells of the hook. *)
Record Hook : Type := {
  gameState : option GameState;
  isLoading : bool;
  error : option string
}.

(** [ServerMessage.data]: absent, a string, a game state (an object
    with a [board]), or the [{ row, col, message }] object. *)
Inductive MessageData : Type :=
  | NoData
  | Text (s : string)
  | StateData (g : GameState)
  | MoveInfo (r c : Z) (message : string).

(** [interface ServerMessage]; [type] is [None] for a string outside
    [ServerMessageType]. *)
Record ServerMessage : Type := {
  type : option ServerMessageType;
  data : MessageData
}.

(** What arrives on the socket: something that is neither a string nor
    an object with [data], text that [JSON.parse] refuses, or a message. *)
Inductive Incoming : Type :=
  | UnknownFormat
  | Malformed
  | Parsed (m : ServerMessage).

(** [handleMessage] of the [onmatchdata] effect.  The deep copy of the
    received state is a value equal to it. *)
Definition handleMessage (h : Hook) (incoming : Incoming) : Hook :=
  match incoming with
  | UnknownFormat => h
  | Malformed =>
      {| gameState := gameState h; isLoading := isLoading h;
         error := Some "Failed to parse server message"%string |}
  | Parsed m =>
      match type m with
      | Some GAME_STATE | Some MOVE_ACCEPTED | Some PLAYER_JOINED | Some GAME_OVER =>
          match data m with
          | StateData g =>
              {| gameState := Some g; isLoading := isLoading h; error := None |}
          | _ => h
          end
      | Some MOVE_REJECTED | Some ERROR =>
          match data m with
          | Text s => {| gameState := gameState h; isLoading := isLoading h; error := Some s |}
          | _ => h
          end
      | Some TIMEOUT_WARNING => h
      | Some PLAYER_LEFT | None => h
      end
  end.

(** What [makeMove] closes over from the Nakama context and the props;
    [matchId] is falsy when it is [null] or the empty string. *)
Record Connection : Type := {
  socket : bool;
  isConnected : bool;
  matchId : option string;
  client : bool;
  session : bool
}.

Definition hasMatchId (conn : Connection) : bool :=
  match matchId conn with
  | Some m => negb (bool_decide (m = ""%string))
  | None => false
  end.

(** The [make_move] RPC payload [{ matchId, row, col }]. *)
Record RpcCall : Type := { rpcMatchId : option string; rpcRow : Z; rpcCol : Z }.

(** The server's answer to the RPC, as [makeMove] tells its cases apart. *)
Inductive RpcReply : Type :=
  | RpcThrows
  | NoPayload
  | Payload (success : bool) (newState : option GameState).

(** [makeMove]: the hook state it leaves and the RPC calls it sent. *)
Definition makeMove (conn : Connection) (h : Hook) (r c : Z) (reply : RpcReply)
    : Hook * list RpcCall :=
  if negb (socket conn) || negb (isConnected conn) || negb (hasMatchId conn) then
    ({| gameState := gameState h; isLoading := isLoading h;
        error := Some "Not connected to server"%string |}, [])
  else
    match gameState h with
    | None =>
        ({| gameState := gameState h; isLoading := isLoading h;
            error := Some "Game is not in progress"%string |}, [])
    | Some g =>
        if negb (bool_decide (state g = PLAYING)) then
          ({| gameState := gameState h; isLoading := isLoading h;
              error := Some "Game is not in progress"%string |}, [])
        else if negb (client conn) || negb (session conn) then
          ({| gameState := gameState h; isLoading := false;
              error := Some "Failed to make move"%string |}, [])
        else
          let call := {| rpcMatchId := matchId conn; rpcRow := r; rpcCol := c |} in
          match reply with
          | RpcThrows | Payload false _ =>
              ({| gameState := gameState h; isLoading := false;
                  error := Some "Failed to make move"%string |}, [ call ])
          | Payload true (Some g') =>
              ({| gameState := Some g'; isLoading := false; error := None |}, [ call ])
          | NoPayload | Payload true None =>
              ({| gameState := gameState h; isLoading := false; error := None |}, [ call ])
          end
    end.

End UseGameState.

(** ** GameBoard component: what is rendered ([components/GameBoard.tsx]) *)

Module GameBoardRender.

Import GameBoard.

(** [gameState.winnerCells || []] *)
Definition winnerCellsOf (props : GameBoardProps) : list Cell :=
  match winnerCells (gameState props) with
  | Some cells => cells
  | None => []
  end.

(** [isWinnerCell]: [winnerCells.some(cell => cell.row === row && cell.col === col)] *)
Definition isWinnerCell (props : GameBoardProps) (r c : Z) : bool :=
  existsb (fun cell => bool_decide (row cell = r) && bool_decide (col cell = c))
          (winnerCellsOf props).

(** [isDisabled] of a rendered button: [disabled || !isMyTurn || cell !== ''],
    as the [disabled] attribute reads it. *)
Definition isDisabled (props : GameBoardProps) (cell : CellValue) : bool :=
  truthy (disabled props) || negb (isMyTurn props) || negb (bool_decide (cell = Empty)).

(** The buttons of [board.map((row, rowIndex) => row.map((cell, colIndex) => ...))]:
    each with the indices its [onClick] passes to [handleCellClick] and
    the cell it shows. *)
Definition buttons (props : GameBoardProps) : list (Z * Z * CellValue) :=
  concat (imap (fun i cells => imap (fun j cell => (Z.of_nat i, Z.of_nat j, cell)) cells)
               (board (gameState props))).

End GameBoardRender.

(** ** MatchStatus component ([components/MatchStatus.tsx]) *)

Module MatchStatus.

(** The props, past the [!gameState] early return. *)
Record MatchStatusProps : Type := {
  gameState : GameState;
  currentUserId : option string
}.

(** [player?.userId === currentUserId]: a missing player gives
    [undefined], which is not [===] to a string or to [null]. *)
Definition sameUser (p : option Player) (uid : option string) : bool :=
  match p with
  | Some q => bool_decide (uid = Some (userId q))
  | None => false
  end.

Definition playerX' (props : MatchStatusProps) : option Player :=
  playerX (players (gameState props)).
Definition playerO' (props : MatchStatusProps) : option Player :=
  playerO (players (gameState props)).

(** [currentPlayer?.userId === currentUserId] *)
Definition isMyTurn (props : MatchStatusProps) : bool :=
  sameUser (playerOf (players (gameState props)) (currentPlayer (gameState props)))
           (currentUserId props).

Definition isPlaying (props : MatchStatusProps) : bool :=
  bool_decide (state (gameState props) = PLAYING).

(** The literals [getStatusMessage] returns, in the order of the source:
    'Waiting for opponent...', 'You Win! ...', 'You Lose ...',
    "It's a Draw! ...", 'Game Over', 'Opponent left the game',
    "Your Turn", "Opponent's Turn", 'Unknown status'. *)
Inductive StatusMessage : Type :=
  | WaitingForOpponent | YouWin | YouLose | ItsADraw | GameOver
  | OpponentLeft | YourTurn | OpponentsTurn | UnknownStatus.

Definition getStatusMessage (props : MatchStatusProps) : StatusMessage :=
  if bool_decide (state (gameState props) = WAITING) then WaitingForOpponent
  else if bool_decide (state (gameState props) = FINISHED) then
    match result (gameState props) with
    | X_WINS => if sameUser (playerX' props) (currentUserId props) then YouWin else YouLose
    | O_WINS => if sameUser (playerO' props) (currentUserId props) then YouWin else YouLose
    | DRAW => ItsADraw
    | ONGOING => GameOver
    end
  else if bool_decide (state (gameState props) = ABANDONED) then OpponentLeft
  else if isPlaying props then
    if isMyTurn props then YourTurn else OpponentsTurn
  else UnknownStatus.

Definition getStatusColor (props : MatchStatusProps) : string :=
  if bool_decide (state (gameState props) = FINISHED) then
    if (bool_decide (result (gameState props) = X_WINS)
        && sameUser (playerX' props) (currentUserId props))
       || (bool_decide (result (gameState props) = O_WINS)
           && sameUser (playerO' props) (currentUserId props))
    then "text-green-600"
    else if bool_decide (result (gameState props) = DRAW) then "text-yellow-600"
    else "text-red-600"
  else if isMyTurn props && isPlaying props then "text-blue-600"
  else "text-gray-600".

(** [getPlayerName]; [player.username || 'Opponent'] falls back on the
    empty string. *)
Definition getPlayerName (props : MatchStatusProps) (player : option Player) : string :=
  match player with
  | None => "Waiting..."
  | Some p =>
      if bool_decide (currentUserId props = Some (userId p)) then "You"
      else if bool_decide (username p = "") then "Opponent"
      else username p
  end.

End MatchStatus.

(** ** The game view ([App.tsx]) *)

Module App.

Import UseGameState.

(** [session?.user_id || null]: an absent or empty id is [null]. *)
Definition currentUserIdOf (user_id : option string) : option string :=
  match user_id with
  | Some u => if bool_decide (u = "") then None else Some u
  | None => None
  end.

(** The props [GameView] passes to [GameBoard] when a game state is
    held: [disabled] is
    [isLoading || !gameState || gameState.state !== MatchState.PLAYING]. *)
Definition boardProps (h : Hook) (g : GameState) (user_id : option string)
    : GameBoard.GameBoardProps :=
  {| GameBoard.gameState := g;
     GameBoard.currentUserId := currentUserIdOf user_id;
     GameBoard.disabled := Some (isLoading h || negb (bool_decide (state g = PLAYING))) |}.

(** [handleCellClick] of [GameView]: without a match id it returns,
    otherwise it awaits [makeMove(row, col)]. *)
Definition handleCellClick (conn : Connection) (h : Hook) (r c : Z) (reply : RpcReply)
    : Hook * list RpcCall :=
  if negb (hasMatchId conn) then (h, []) else makeMove conn h r c reply.

(** A click on the button of cell (r, c): the board's [handleCellClick]
    with the props of [GameView], then the view's callback when the
    board invokes it.  Without a held state the board shows no cell. *)
Definition cellClicked (conn : Connection) (h : Hook) (user_id : option string)
    (r c : Z) (reply : RpcReply) : Hook * list RpcCall :=
  match gameState h with
  | None => (h, [])
  | Some g =>
      match GameBoard.handleCellClick (boardProps h g user_id) r c with
      | GameBoard.Invoked r' c' => handleCellClick conn h r' c' reply
      | _ => (h, [])
      end
  end.

(** The texts of the game-over heading: 'You Win! ...', 'You Lose ...',
    "It's a Draw! ...". *)
Inductive Heading : Type := HeadWin | HeadLose | HeadDraw.

(** [cond && text] as a JSX child: the text if [cond] holds, nothing
    otherwise. *)
Definition shown (cond : bool) (text : Heading) : list Heading :=
  if cond then [ text ] else [].

(** The children of the heading of the game-over card, which is
    rendered when [gameState?.state === MatchState.FINISHED]. *)
Definition gameOverHeading (g : GameState) (uid : option string) : list Heading :=
  shown (bool_decide (result g = X_WINS) && MatchStatus.sameUser (playerX (players g)) uid) HeadWin
  ++ shown (bool_decide (result g = O_WINS) && MatchStatus.sameUser (playerO (players g)) uid) HeadWin
  ++ shown (bool_decide (result g = X_WINS) && negb (MatchStatus.sameUser (playerX (players g)) uid)) HeadLose
  ++ shown (bool_decide (result g = O_WINS) && negb (MatchStatus.sameUser (playerO (players g)) uid)) HeadLose
  ++ shown (bool_decide (result g = DRAW)) HeadDraw.

End App.

(** ** useMatchmaking hook ([hooks/useMatchmaking.ts])

    Each asynchronous function is cut at its [await]: the part before
    it and the part after it are separate steps, so that other steps
    may run in between. *)

Module UseMatchmaking.

(** [enum MatchmakingState] *)
Inductive MatchmakingState : Type := IDLE | SEARCHING | MATCHED | ERROR.

(** The four React state cells of the hook. *)
Record Hook : Type := {
  matchmakingState : MatchmakingState;
  matchId : option string;
  ticket : option string;
  error : option string
}.

Definition initial : Hook :=
  {| matchmakingState := IDLE; matchId := None; ticket := None; error := None |}.

(** What [socket.addMatchmaker] gives: a ticket, or an exception, whose
    message is used when it is an [Error]. *)
Inductive AddOutcome : Type :=
  | Ticket (t : string)
  | AddThrows (message : option string).

(** [handleMatchmakerMatched] after [await socket.joinMatch]: the id of
    the joined match, or [None] when the call threw. *)
Definition matched (h : Hook) (joined : option string) : Hook :=
  match joined with
  | Some id =>
      {| matchmakingState := MATCHED; matchId := Some id; ticket := None; error := error h |}
  | None =>
      {| matchmakingState := ERROR; matchId := matchId h; ticket := ticket h;
         error := Some "Failed to join match"%string |}
  end.

(** [findMatch] up to [await socket.addMatchmaker]: the hook and whether
    the call is made. *)
Definition findMatchStart (socket isConnected : bool) (h : Hook) : Hook * bool :=
  if negb socket || negb isConnected then
    ({| matchmakingState := matchmakingState h; matchId := matchId h; ticket := ticket h;
        error := Some "Not connected to server"%string |}, false)
  else
    ({| matchmakingState := SEARCHING; matchId := None; ticket := ticket h;
        error := None |}, true).

(** [findMatch] after the [await]. *)
Definition findMatchDone (h : Hook) (o : AddOutcome) : Hook :=
  match o with
  | Ticket t =>
      {| matchmakingState := matchmakingState h; matchId := matchId h; ticket := Some t;
         error := error h |}
  | AddThrows message =>
      {| matchmakingState := ERROR; matchId := matchId h; ticket := ticket h;
         error := Some (match message with
                        | Some m => m
                        | None => "Failed to start matchmaking"%string
                        end) |}
  end.

(** [cancelMatchmaking] up to [await socket.removeMatchmaker(ticket)]:
    the ticket to remove, if the guard [!socket || !ticket] lets it
    through (an empty ticket is falsy). *)
Definition cancelStart (socket : bool) (h : Hook) : option string :=
  match ticket h with
  | Some t => if negb socket || bool_decide (t = ""%string) then None else Some t
  | None => None
  end.

(** [cancelMatchmaking] after the [await]. *)
Definition cancelDone (h : Hook) (removed : bool) : Hook :=
  if removed then
    {| matchmakingState := IDLE; matchId := matchId h; ticket := None; error := error h |}
  else
    {| matchmakingState := matchmakingState h; matchId := matchId h; ticket := ticket h;
       error := Some "Failed to cancel matchmaking"%string |}.

Definition reset (h : Hook) : Hook := initial.

(** The steps of the hook, in any order the event loop may take them. *)
Inductive Step : Type :=
  | Matched (joined : option string)
  | FindStart (socket isConnected : bool)
  | FindDone (o : AddOutcome)
  | CancelDone (removed : bool)
  | Reset.

Definition step (h : Hook) (ev : Step) : Hook :=
  match ev with
  | Matched joined => matched h joined
  | FindStart socket isConnected => fst (findMatchStart socket isConnected h)
  | FindDone o => findMatchDone h o
  | CancelDone removed => cancelDone h removed
  | Reset => reset h
  end.

Definition steps (h : Hook) (evs : list Step) : Hook := fold_left step evs h.

End UseMatchmaking.

(** ** Board cells *)

Definition X_ : CellValue := Mark X.
Definition O_ : CellValue := Mark O.
Definition E_ : CellValue := Empty.

(** The boards of the unit tests and of the scenarios. *)

Definition beforeHorizontalWin : BoardState :=
  [ [X_; X_; E_]; [O_; O_; E_]; [E_; E_; E_] ].

Definition beforeDraw : BoardState :=
  [ [X_; O_; X_]; [O_; O_; X_]; [O_; X_; E_] ].

Definition drawBoard : BoardState :=
  [ [X_; O_; X_]; [O_; O_; X_]; [O_; X_; O_] ].

(** A board with a complete top row of X and a later X at (2,2). *)
Definition staleLineBoard : BoardState :=
  [ [X_; X_; X_]; [O_; O_; E_]; [E_; O_; X_] ].

(** A game in progress: two X, one O, O to move. *)
Definition midGame : BoardState :=
  [ [X_; X_; E_]; [O_; E_; E_]; [E_; E_; E_] ].

(** The participants and the match states of the scenarios. *)

Definition alice : Player :=
  {| userId := "alice"; username := "Alice"; symbol := X; present := true |}.

Definition bob : Player :=
  {| userId := "bob"; username := "Bob"; symbol := O; present := true |}.

Definition playing (b : BoardState) (turn : PlayerSymbol) (moves last : Z) : GameState :=
  {| board := b; currentPlayer := turn;
     players := {| playerX := Some alice; playerO := Some bob |};
     state := PLAYING; result := ONGOING;
     moveCount := moves; lastMoveTime := last;
     winnerCells := None; timeoutWarningSent := None |}.

Definition finishedMatch : GameState :=
  {| board := writeCell beforeHorizontalWin 0 2 (Mark X); currentPlayer := X;
     players := {| playerX := Some alice; playerO := Some bob |};
     state := FINISHED; result := X_WINS;
     moveCount := 5; lastMoveTime := 40;
     winnerCells := Some (rowLine 0); timeoutWarningSent := None |}.

(** A move accepted by [submitMove] that completes a line. *)
Definition wonByLine (st : GameState) (id : string) (r c now : Z) : Prop :=
  exists b' l,
    apply (board st) r c (currentPlayer st) = Placed b'
    /\ evaluate b' r c (currentPlayer st) = Win l
    /\ snd (submitMove st id r c now) = Accepted.

(** ** Proof automation *)

(** Case analysis on the booleans a run branches on. *)
Ltac split_run :=
  repeat (cbn;
    match goal with
    | |- context [ if ?x then _ else _ ] => is_var x; destruct x
    | |- context [ andb ?x _ ] => is_var x; destruct x
    end);
  cbn.

(** Brings the twelve cell tests of [checkWinCondition] and the two
    diagonal guards into the goal as boolean variables. *)
Ltac name_tests b sym lastRow lastCol :=
  destruct (bool_decide (lastRow = lastCol)), (bool_decide (lastRow + lastCol = 2));
  cbn [forallb find app concat];
  generalize (holds b sym {| row := lastRow; col := 0 |});
  generalize (holds b sym {| row := lastRow; col := 1 |});
  generalize (holds b sym {| row := lastRow; col := 2 |});
  generalize (holds b sym {| row := 0; col := lastCol |});
  generalize (holds b sym {| row := 1; col := lastCol |});
  generalize (holds b sym {| row := 2; col := lastCol |});
  generalize (holds b sym {| row := 0; col := 0 |});
  generalize (holds b sym {| row := 1; col := 1 |});
  generalize (holds b sym {| row := 2; col := 2 |});
  generalize (holds b sym {| row := 0; col := 2 |});
  generalize (holds b sym {| row := 2; col := 0 |});
  intros; unfold andAlso, Js.bind, Js.ret, Js.value, Js.reads.

(** A concrete list is a subsequence of another: equal heads are
    matched, any other head of the longer list is dropped. *)
Ltac subsequence :=
  repeat first [ apply sublist_nil | apply sublist_skip | apply sublist_cons ].

(** * Properties *)

Section Indexing.

Lemma jsIndex_defined {A : Type} (a : list A) (i : Z) :
  0 <= i < Z.of_nat (length a) -> is_Some (jsIndex a i).
Proof.
  intros Hi. unfold jsIndex. rewrite decide_True by lia.
  apply lookup_lt_is_Some. lia.
Qed.

Lemma jsIndex_Some_length {A : Type} (a : list A) (i : Z) (x : A) :
  jsIndex a i = Some x -> 0 <= i < Z.of_nat (length a).
Proof.
  unfold jsIndex. destruct (decide (0 <= i)) as [Hi|Hi]; [|discriminate].
  intros Hl. apply lookup_lt_Some in Hl. lia.
Qed.

Lemma isBoardState_rows (b : BoardState) :
  isBoardState b = true -> length b = 3%nat.
Proof.
  unfold isBoardState. intros H. apply andb_true_iff in H as [H _].
  by apply bool_decide_eq_true in H.
Qed.

Lemma isBoardState_cols (b : BoardState) (r : Z) (cells : list CellValue) :
  isBoardState b = true -> jsIndex b r = Some cells -> length cells = 3%nat.
Proof.
  unfold isBoardState, jsIndex. intros H Hr.
  apply andb_true_iff in H as [_ H].
  destruct (decide (0 <= r)); [|discriminate].
  rewrite forallb_forall in H.
  apply list_elem_of_lookup_2, list_elem_of_In, H in Hr.
  by apply bool_decide_eq_true in Hr.
Qed.

Lemma row_defined (b : BoardState) (r : Z) :
  isBoardState b = true -> 0 <= r <= 2 -> is_Some (jsIndex b r).
Proof.
  intros Hb Hr. apply jsIndex_defined. rewrite (isBoardState_rows b Hb). lia.
Qed.

Lemma cell_defined (b : BoardState) (r c : Z) :
  isBoardState b = true -> inGrid r c -> is_Some (cellAt b r c).
Proof.
  intros Hb [Hr Hc]. unfold cellAt.
  destruct (row_defined b r Hb Hr) as [cells Hcells]. rewrite Hcells.
  apply jsIndex_defined. rewrite (isBoardState_cols b r cells Hb Hcells). lia.
Qed.

End Indexing.

Section Evaluator.

Variable b : BoardState.
Hypothesis Hb : isBoardState b = true.

(** On a 3x3 board, reading a cell of an existing row never throws. *)
Lemma cellIs_row_defined (r c : Z) (sym : PlayerSymbol) :
  0 <= r <= 2 ->
  cellIs b r c sym = ([ {| row := r; col := c |} ], Some (holds b sym {| row := r; col := c |})).
Proof using Hb.
  intros Hr. unfold cellIs, readCell, holds, cellAt. cbn [row col].
  destruct (row_defined b r Hb Hr) as [cells ->]. reflexivity.
Qed.

End Evaluator.

Lemma checkWinCondition_run (b : BoardState) (lastRow lastCol : Z) (sym : PlayerSymbol) :
  isBoardState b = true -> inGrid lastRow lastCol ->
  Js.value (checkWinCondition b lastRow lastCol sym)
  = Some (verdict (find (isComplete b sym) (linesThrough lastRow lastCol))).
Proof.
  intros Hb [Hr Hc]. unfold checkWinCondition.
  rewrite !(cellIs_row_defined b Hb) by lia.
  unfold linesThrough, isComplete, rowLine, colLine, mainDiagonal, antiDiagonal, line.
  name_tests b sym lastRow lastCol; split_run; reflexivity.
Qed.

Lemma checkWinCondition_reads (b : BoardState) (lastRow lastCol : Z) (sym : PlayerSymbol) :
  isBoardState b = true -> inGrid lastRow lastCol ->
  Js.reads (checkWinCondition b lastRow lastCol sym)
    `sublist_of` concat (linesThrough lastRow lastCol).
Proof.
  intros Hb [Hr Hc]. unfold checkWinCondition.
  rewrite !(cellIs_row_defined b Hb) by lia.
  unfold linesThrough, rowLine, colLine, mainDiagonal, antiDiagonal, line.
  name_tests b sym lastRow lastCol; split_run; subsequence.
Qed.

(** Every cell of a line examined after a move in the grid is a cell of
    the grid. *)
Lemma linesThrough_inGrid (lastRow lastCol : Z) :
  inGrid lastRow lastCol ->
  Forall (fun p => inGrid (row p) (col p)) (concat (linesThrough lastRow lastCol)).
Proof.
  intros [Hr Hc]. unfold linesThrough, rowLine, colLine, mainDiagonal, antiDiagonal.
  do 2 case_bool_decide; cbn [app concat];
    repeat constructor; cbn [row col]; lia.
Qed.

(** A row index outside [0,2] is not checked by the function: the first
    read of the board throws. *)
Lemma checkWinCondition_row_unchecked (b : BoardState) (lastRow lastCol : Z) (sym : PlayerSymbol) :
  isBoardState b = true -> ~ 0 <= lastRow <= 2 ->
  Js.value (checkWinCondition b lastRow lastCol sym) = None.
Proof.
  intros Hb Hr. unfold checkWinCondition, andAlso, cellIs, readCell.
  destruct (jsIndex b lastRow) as [cells|] eqn:Hrow; [|reflexivity].
  apply jsIndex_Some_length in Hrow. rewrite (isBoardState_rows b Hb) in Hrow. lia.
Qed.

Lemma find_none_all {A : Type} (f : A -> bool) (l : list A) :
  (forall x, x ∈ l -> f x = false) -> find f l = None.
Proof.
  induction l as [|x l IH]; intros H; [reflexivity|]. cbn.
  rewrite (H x) by constructor. apply IH. intros y Hy. apply H. by constructor.
Qed.

Lemma isComplete_false (b : BoardState) (sym : PlayerSymbol) (l : list Cell) (p : Cell) :
  p ∈ l -> holds b sym p = false -> isComplete b sym l = false.
Proof.
  intros Hp Hh. unfold isComplete. apply not_true_is_false. intros Hall.
  rewrite forallb_forall in Hall. apply list_elem_of_In, Hall in Hp. congruence.
Qed.

Lemma grid_index (i : Z) : 0 <= i <= 2 -> i = 0 \/ i = 1 \/ i = 2.
Proof. lia. Qed.

(** Each line examined after a move at (r, c) passes through (r, c). *)
Lemma linesThrough_contains (r c : Z) (l : list Cell) :
  inGrid r c -> l ∈ linesThrough r c -> {| row := r; col := c |} ∈ l.
Proof.
  intros [Hr Hc] Hl.
  destruct (grid_index r Hr) as [-> | [-> | ->]], (grid_index c Hc) as [-> | [-> | ->]];
    unfold linesThrough in Hl; do 2 case_bool_decide; try lia; cbn [app] in Hl;
    rewrite ?elem_of_cons, elem_of_nil in Hl;
    destruct_or!; try contradiction; subst l;
    unfold rowLine, colLine, mainDiagonal, antiDiagonal; rewrite !elem_of_cons; auto.
Qed.

(** The lines examined are exactly the lines of the grid through the
    cell, in the order rows, columns, main diagonal, anti-diagonal. *)
Lemma linesThrough_filter (r c : Z) :
  inGrid r c ->
  linesThrough r c = filter (fun l => {| row := r; col := c |} ∈ l) allLines.
Proof.
  intros [Hr Hc].
  destruct (grid_index r Hr) as [-> | [-> | ->]], (grid_index c Hc) as [-> | [-> | ->]];
    vm_compute; reflexivity.
Qed.

Lemma Forall_sublist {A : Type} (P : A -> Prop) (l k : list A) :
  l `sublist_of` k -> Forall P k -> Forall P l.
Proof.
  induction 1 as [|x l k _ IH|x l k _ IH]; intros Hk.
  - constructor.
  - inversion Hk; subst. constructor; auto.
  - inversion Hk; subst. auto.
Qed.

Lemma won_verdict_find (f : list Cell -> bool) (ls : list (list Cell)) :
  won (verdict (find f ls)) = existsb f ls.
Proof.
  induction ls as [|l ls IH]; [reflexivity|]. cbn. destruct (f l); [reflexivity|exact IH].
Qed.

(** On a 3x3 board and from a cell of the grid, the verdict is that of
    the lines through the cell. *)
Lemma wonBy_linesThrough (b : BoardState) (r c : Z) (sym : PlayerSymbol) :
  isBoardState b = true -> inGrid r c ->
  wonBy b r c sym = Some (existsb (isComplete b sym) (linesThrough r c)).
Proof.
  intros Hb Hrc. unfold wonBy. rewrite (checkWinCondition_run b r c sym Hb Hrc).
  cbn -[verdict find existsb]. by rewrite won_verdict_find.
Qed.

(** C1.  On every 3x3 board and for every last move in the grid,
    [checkWinCondition] returns the first complete line of the symbol
    among: the row of the last move, its column, the main diagonal only
    if lastRow = lastCol, the anti-diagonal only if lastRow + lastCol = 2
    (in this order), with exactly the three cells of that line, and no
    win if none is complete; the cells it reads are taken, in order,
    from these lines.  The horizontal-win scenario of the specification
    is the instance [checkWinCondition_first_line_witness]. *)
Theorem checkWinCondition_first_line
    (b : BoardState) (lastRow lastCol : Z) (sym : PlayerSymbol) :
  isBoardState b = true -> inGrid lastRow lastCol ->
  Js.value (checkWinCondition b lastRow lastCol sym)
    = Some (verdict (find (isComplete b sym) (linesThrough lastRow lastCol)))
  /\ Js.reads (checkWinCondition b lastRow lastCol sym)
       `sublist_of` concat (linesThrough lastRow lastCol).
Proof.
  intros Hb Hrc. split.
  - by apply checkWinCondition_run.
  - by apply checkWinCondition_reads.
Qed.

Lemma checkWinCondition_first_line_witness :
  isBoardState (writeCell beforeHorizontalWin 0 2 (Mark X)) = true
  /\ inGrid 0 2
  /\ Js.value (checkWinCondition (writeCell beforeHorizontalWin 0 2 (Mark X)) 0 2 X)
     = Some {| won := true;
               winningCells := Some [ {| row := 0; col := 0 |};
                                      {| row := 0; col := 1 |};
                                      {| row := 0; col := 2 |} ] |}.
Proof.
  split; [reflexivity|]. split; [unfold inGrid; lia|].
  rewrite (proj1 (checkWinCondition_first_line
                    (writeCell beforeHorizontalWin 0 2 (Mark X)) 0 2 X
                    eq_refl (conj (conj (Z.le_refl 0) (Zle_0_pos 2))
                                  (conj (Zle_0_pos 2) (Z.le_refl 2))))).
  reflexivity.
Defined.

(** C9.  On every 3x3 board and for every lastRow, lastCol in [0,2],
    [checkWinCondition] returns a value (no [TypeError] is thrown) and
    every [board[r][c]] it evaluates is a cell of the grid, hence a
    defined cell of the board. *)
Theorem checkWinCondition_in_bounds
    (b : BoardState) (lastRow lastCol : Z) (sym : PlayerSymbol) :
  isBoardState b = true -> inGrid lastRow lastCol ->
  is_Some (Js.value (checkWinCondition b lastRow lastCol sym))
  /\ Forall (fun p => inGrid (row p) (col p))
            (Js.reads (checkWinCondition b lastRow lastCol sym))
  /\ Forall (fun p => is_Some (cellAt b (row p) (col p)))
            (Js.reads (checkWinCondition b lastRow lastCol sym)).
Proof.
  intros Hb Hrc.
  assert (Hin : Forall (fun p => inGrid (row p) (col p))
                       (Js.reads (checkWinCondition b lastRow lastCol sym))).
  { eapply Forall_sublist; [by apply checkWinCondition_reads|].
    by apply linesThrough_inGrid. }
  split; [|split].
  - rewrite checkWinCondition_run by assumption. eauto.
  - exact Hin.
  - eapply Forall_impl; [exact Hin|]. intros p Hp. by apply cell_defined.
Qed.

Lemma checkWinCondition_in_bounds_witness :
  is_Some (Js.value (checkWinCondition drawBoard 2 2 O))
  /\ Forall (fun p => inGrid (row p) (col p)) (Js.reads (checkWinCondition drawBoard 2 2 O))
  /\ Forall (fun p => is_Some (cellAt drawBoard (row p) (col p)))
            (Js.reads (checkWinCondition drawBoard 2 2 O)).
Proof.
  apply (checkWinCondition_in_bounds drawBoard 2 2 O).
  - reflexivity.
  - unfold inGrid; lia.
Defined.

(** A cell of the grid that holds [sym] blocks every line examined from
    it for the other symbol. *)
Lemma other_symbol_has_no_line (b' : BoardState) (r c : Z) (sym : PlayerSymbol) :
  inGrid r c -> cellAt b' r c = Some (Mark sym) ->
  forall l, l ∈ linesThrough r c -> isComplete b' (other sym) l = false.
Proof.
  intros Hrc Hcell l Hl.
  apply (isComplete_false b' (other sym) l {| row := r; col := c |}).
  - by apply linesThrough_contains.
  - unfold holds. cbn [row col]. rewrite Hcell. apply bool_decide_eq_false.
    destruct sym; intros [=].
Qed.

(** C3.  After a move that writes [sym] into a cell (r, c) of the grid,
    evaluating from (r, c) never reports a win for the opposite symbol:
    whenever [board'[r][c]] holds [sym], [checkWinCondition] for
    [other sym] returns [won = false]. *)
Theorem no_win_for_other_symbol (b' : BoardState) (r c : Z) (sym : PlayerSymbol) :
  isBoardState b' = true -> inGrid r c ->
  cellAt b' r c = Some (Mark sym) ->
  wonBy b' r c (other sym) = Some false.
Proof.
  intros Hb Hrc Hcell. rewrite wonBy_linesThrough by assumption. f_equal.
  apply not_true_is_false. intros Hex. apply existsb_exists in Hex as (l & Hl & Hcomplete).
  apply list_elem_of_In in Hl.
  rewrite (other_symbol_has_no_line b' r c sym Hrc Hcell l Hl) in Hcomplete.
  discriminate.
Qed.

Lemma no_win_for_other_symbol_witness :
  wonBy (writeCell beforeHorizontalWin 0 2 (Mark X)) 0 2 (other X) = Some false.
Proof.
  apply (no_win_for_other_symbol (writeCell beforeHorizontalWin 0 2 (Mark X)) 0 2 X).
  - reflexivity.
  - unfold inGrid; lia.
  - reflexivity.
Defined.

Lemma jsIndex_insert_same {A : Type} (a : list A) (i : Z) (x : A) :
  is_Some (jsIndex a i) -> jsIndex (<[ Z.to_nat i := x ]> a) i = Some x.
Proof.
  unfold jsIndex. destruct (decide (0 <= i)); [|by intros [? [=]]].
  intros [y Hy]. apply list_lookup_insert_eq. by eapply lookup_lt_Some.
Qed.

Lemma jsIndex_insert_other {A : Type} (a : list A) (i j : Z) (x : A) :
  0 <= i -> i <> j -> jsIndex (<[ Z.to_nat i := x ]> a) j = jsIndex a j.
Proof.
  intros Hi Hne. unfold jsIndex. destruct (decide (0 <= j)); [|reflexivity].
  apply list_lookup_insert_ne. lia.
Qed.

Section WriteCell.

Variables (b : BoardState) (r c : Z) (v : CellValue).
Hypothesis Hr : 0 <= r.
Hypothesis Hc : 0 <= c.

Lemma cellAt_writeCell_same :
  is_Some (cellAt b r c) -> cellAt (writeCell b r c v) r c = Some v.
Proof using Type.
  unfold cellAt, writeCell.
  destruct (jsIndex b r) as [cells|] eqn:Hrow; [|by intros [? [=]]].
  cbv beta iota. intros Hcell. rewrite jsIndex_insert_same by (rewrite Hrow; eauto).
  by apply jsIndex_insert_same.
Qed.

Lemma cellAt_writeCell_other (r' c' : Z) :
  (r', c') <> (r, c) -> cellAt (writeCell b r c v) r' c' = cellAt b r' c'.
Proof using Hr Hc.
  intros Hne. unfold cellAt, writeCell.
  destruct (jsIndex b r) as [cells|] eqn:Hrow; [|reflexivity].
  cbv beta iota. destruct (decide (r = r')) as [<-|Hrr].
  - rewrite jsIndex_insert_same by (rewrite Hrow; eauto). rewrite Hrow.
    apply jsIndex_insert_other; [exact Hc|]. intros ->. by apply Hne.
  - by rewrite jsIndex_insert_other.
Qed.


(** A line that avoids the written cell is complete after the write
    exactly when it was before. *)
Lemma isComplete_writeCell_off (sym : PlayerSymbol) (l : list Cell) :
  {| row := r; col := c |} ∉ l ->
  isComplete (writeCell b r c v) sym l = isComplete b sym l.
Proof using Hr Hc.
  intros Hoff. unfold isComplete. induction l as [|p l IH]; [reflexivity|].
  cbn [forallb]. rewrite IH by (intros ?; apply Hoff; by constructor). f_equal.
  unfold holds. rewrite cellAt_writeCell_other; [reflexivity|].
  intros [=]. apply Hoff. destruct p; cbn in *; subst. constructor.
Qed.

End WriteCell.

Lemma existsb_filter {A : Type} (f : A -> bool) (P : A -> Prop)
    `{!forall x, Decision (P x)} (l : list A) :
  (forall x, x ∈ l -> ~ P x -> f x = false) ->
  existsb f l = existsb f (filter P l).
Proof.
  induction l as [|x l IH]; intros Hoff; [reflexivity|].
  rewrite filter_cons. cbn [existsb].
  rewrite IH by (intros y Hy; apply Hoff; by constructor).
  destruct (decide (P x)) as [HP|HP]; [reflexivity|].
  rewrite (Hoff x) by (constructor || assumption). reflexivity.
Qed.

Lemma existsb_false_all {A : Type} (f : A -> bool) (l : list A) (x : A) :
  existsb f l = false -> x ∈ l -> f x = false.
Proof.
  intros Hex Hx. apply not_true_is_false. intros Hf.
  assert (existsb f l = true) by (apply existsb_exists; exists x; by rewrite <- list_elem_of_In).
  congruence.
Qed.

Lemma linesThrough_allLines (r c : Z) (l : list Cell) :
  inGrid r c -> l ∈ linesThrough r c -> l ∈ allLines.
Proof.
  intros Hrc. rewrite linesThrough_filter by assumption. intros Hl.
  by apply list_elem_of_filter in Hl as [_ Hl].
Qed.

(** C2, the claim as stated fails: a cell holding the symbol is not
    enough for the lines through it to decide the full scan.  On
    [staleLineBoard] the cell (2,2) holds X and the top row is a
    complete line of X, which the check from (2,2) does not examine. *)
Lemma restricted_check_misses_stale_line :
  ~ (forall (b : BoardState) (lastRow lastCol : Z) (sym : PlayerSymbol),
       isBoardState b = true -> inGrid lastRow lastCol ->
       cellAt b lastRow lastCol = Some (Mark sym) ->
       wonBy b lastRow lastCol sym = Some (scanAllLines b sym)).
Proof.
  intros H. specialize (H staleLineBoard 2 2 X eq_refl). 
  assert (Hgrid : inGrid 2 2) by (unfold inGrid; lia).
  specialize (H Hgrid eq_refl). vm_compute in H. discriminate.
Qed.

(** C2, amended.  On every 3x3 board a win reported from a cell of the
    grid is a line that the full scan of the eight lines also finds;
    and when the board results from writing the symbol into that cell
    of a board on which the symbol had no complete line, the check of
    the lines through the cell gives the verdict of the full scan. *)
Theorem checkWinCondition_refines_full_scan
    (b : BoardState) (lastRow lastCol : Z) (sym : PlayerSymbol) :
  isBoardState b = true -> inGrid lastRow lastCol ->
  (wonBy b lastRow lastCol sym = Some true -> scanAllLines b sym = true)
  /\ (forall prior : BoardState,
        isBoardState prior = true ->
        scanAllLines prior sym = false ->
        b = writeCell prior lastRow lastCol (Mark sym) ->
        wonBy b lastRow lastCol sym = Some (scanAllLines b sym)).
Proof.
  intros Hb Hrc. rewrite wonBy_linesThrough by assumption. split.
  - intros Hwon.
    assert (Hex : existsb (isComplete b sym) (linesThrough lastRow lastCol) = true)
      by congruence.
    apply existsb_exists in Hex as (l & Hl & Hcomplete).
    apply existsb_exists. exists l. split; [|exact Hcomplete].
    apply list_elem_of_In. eapply linesThrough_allLines; [exact Hrc|].
    by apply list_elem_of_In.
  - intros prior Hprior Hnone ->. f_equal. unfold scanAllLines.
    rewrite linesThrough_filter by assumption.
    symmetry. apply existsb_filter. intros l Hl Hoff.
    destruct Hrc as [Hr Hc].
    rewrite isComplete_writeCell_off by (lia || assumption).
    by eapply existsb_false_all.
Qed.

Lemma checkWinCondition_refines_full_scan_witness :
  wonBy (writeCell beforeHorizontalWin 0 2 (Mark X)) 0 2 X
  = Some (scanAllLines (writeCell beforeHorizontalWin 0 2 (Mark X)) X).
Proof.
  assert (Hgrid : inGrid 0 2) by (unfold inGrid; lia).
  apply (proj2 (checkWinCondition_refines_full_scan
                  (writeCell beforeHorizontalWin 0 2 (Mark X)) 0 2 X eq_refl Hgrid)
               beforeHorizontalWin); reflexivity.
Defined.

(** ** The Board Model and the state machine *)

Lemma apply_Placed (b b' : BoardState) (r c : Z) (sym : PlayerSymbol) :
  apply b r c sym = Placed b' ->
  inGrid r c /\ cellAt b r c = Some Empty /\ b' = writeCell b r c (Mark sym).
Proof.
  unfold apply, inGrid. repeat case_bool_decide; cbn; intros [=]; auto.
Qed.


(** The first testable property of the specification: [apply] followed
    by [evaluate] never reports a win for the symbol that did not move. *)
Lemma apply_then_evaluate_other (b b' : BoardState) (r c : Z) (sym : PlayerSymbol) :
  apply b r c sym = Placed b' ->
  forall l, evaluate b' r c (other sym) <> Win l.
Proof.
  intros Happly l. apply apply_Placed in Happly as ((Hr & Hc) & Hempty & ->).
  unfold evaluate. rewrite find_none_all.
  - by destruct (isFull _).
  - apply other_symbol_has_no_line; [by split|].
    apply cellAt_writeCell_same. rewrite Hempty. eauto.
Qed.




Lemma run_terminal (deadlineSeconds : Z) (st : GameState) (evs : list Event) :
  isTerminal (state st) = true ->
  fst (run deadlineSeconds st evs) = st
  /\ Forall (fun e => isSinkCall e = false /\ isBroadcast e = false)
            (snd (run deadlineSeconds st evs)).
Proof.
  intros Hterm. induction evs as [|ev evs [IHst IHout]]; [by split; [|constructor]|].
  cbn [run].
  assert (Hstep : exists out, process deadlineSeconds st ev = (st, out)
                    /\ Forall (fun e => isSinkCall e = false /\ isBroadcast e = false) out).
  { destruct ev as [id r c now|now|id]; cbn;
      unfold submitMove, checkTimeout; rewrite Hterm; eexists; (split; [reflexivity|]);
      repeat constructor. }
  destruct Hstep as (out & -> & Hout).
  destruct (run deadlineSeconds st evs) as [st2 out2]. cbn in *. subst st2.
  split; [reflexivity|]. by apply Forall_app.
Qed.

(** C5.  Once the phase is Finished or Abandoned, every [submitMove]
    and every [checkTimeout] returns the state unchanged with the
    rejection [MatchAlreadyFinished]; whatever events the session then
    processes, the state stays the same and neither a Result Sink call
    nor a broadcast is produced.  On the client, [makeMove] on a held
    state in such a phase sends no move and keeps the held state. *)
Theorem terminal_phase_is_final (st : GameState) :
  state st = FINISHED \/ state st = ABANDONED ->
  (forall id r c now, submitMove st id r c now = (st, Rejected MatchAlreadyFinished))
  /\ (forall now deadlineSeconds,
        checkTimeout st now deadlineSeconds = (st, Rejected MatchAlreadyFinished))
  /\ (forall id, markAbandoned st id = st)
  /\ (forall deadlineSeconds evs,
        fst (run deadlineSeconds st evs) = st
        /\ Forall (fun e => isSinkCall e = false /\ isBroadcast e = false)
                  (snd (run deadlineSeconds st evs)))
  /\ (forall conn h r c reply,
        UseGameState.gameState h = Some st ->
        snd (UseGameState.makeMove conn h r c reply) = []
        /\ UseGameState.gameState (fst (UseGameState.makeMove conn h r c reply)) = Some st).
Proof.
  intros Hphase.
  assert (Hterm : isTerminal (state st) = true) by (destruct Hphase as [-> | ->]; reflexivity).
  split; [|split; [|split; [|split]]].
  - intros id r c now. unfold submitMove. by rewrite Hterm.
  - intros now deadlineSeconds. unfold checkTimeout. by rewrite Hterm.
  - intros id. unfold markAbandoned. by rewrite Hterm.
  - intros deadlineSeconds evs. by apply run_terminal.
  - intros conn h r c reply Hheld. unfold UseGameState.makeMove. rewrite Hheld.
    rewrite (bool_decide_eq_false_2 (state st = PLAYING))
      by (destruct Hphase as [-> | ->]; discriminate).
    cbn [negb]. by destruct (negb _ || negb _ || negb _).
Qed.

Lemma terminal_phase_is_final_witness :
  submitMove finishedMatch "bob" 1 2 60 = (finishedMatch, Rejected MatchAlreadyFinished)
  /\ checkTimeout finishedMatch 100 30 = (finishedMatch, Rejected MatchAlreadyFinished).
Proof.
  assert (Hphase : state finishedMatch = FINISHED \/ state finishedMatch = ABANDONED)
    by (left; reflexivity).
  split.
  - apply (proj1 (terminal_phase_is_final finishedMatch Hphase)).
  - apply (proj1 (proj2 (terminal_phase_is_final finishedMatch Hphase))).
Defined.

Lemma submitMove_Rejected (st : GameState) (id : string) (r c now : Z) (e : Rejection) :
  snd (submitMove st id r c now) = Rejected e -> fst (submitMove st id r c now) = st.
Proof.
  unfold submitMove.
  destruct (isTerminal (state st)); [reflexivity|].
  destruct (negb (bool_decide (0 <= r <= 2)) || _); [reflexivity|].
  destruct (negb (bool_decide (state st = PLAYING)) || _); [reflexivity|].
  destruct (apply _ _ _ _) as [b'|e']; [|reflexivity].
  destruct (evaluate _ _ _ _); cbn; discriminate.
Qed.

Lemma checkTimeout_Rejected (st : GameState) (now deadlineSeconds : Z) (e : Rejection) :
  snd (checkTimeout st now deadlineSeconds) = Rejected e ->
  fst (checkTimeout st now deadlineSeconds) = st.
Proof.
  unfold checkTimeout.
  destruct (isTerminal (state st)); [reflexivity|].
  destruct (bool_decide _ && bool_decide _); cbn; [discriminate|reflexivity].
Qed.

(** C6, the claim as stated fails: [GameResult] has the values X_WINS,
    O_WINS, DRAW and ONGOING only, so the result of a forfeit is the
    very result of a win by a line.  O runs out of time in one match and
    X completes the top row in another: both results are X_WINS. *)
Lemma forfeit_result_is_not_tagged :
  ~ (forall (st : GameState) (now deadlineSeconds : Z)
            (st2 : GameState) (id : string) (r c now2 : Z),
       state st = PLAYING -> now - lastMoveTime st >= deadlineSeconds ->
       wonByLine st2 id r c now2 ->
       result (fst (checkTimeout st now deadlineSeconds))
       <> result (fst (submitMove st2 id r c now2))).
Proof.
  intros H.
  apply (H (playing midGame O 3 100) 131 30
           (playing beforeHorizontalWin X 4 100) "alice"%string 0 2 110).
  - reflexivity.
  - cbn. lia.
  - exists (writeCell beforeHorizontalWin 0 2 (Mark X)), (rowLine 0).
    repeat split.
  - reflexivity.
Qed.

(** C6, amended.  For every state in phase Playing with
    [now - lastMoveTime >= deadlineSeconds], [checkTimeout] moves to
    phase Finished with the result of a win of the symbol not on turn
    (X_WINS or O_WINS) and records no winning line; the rest of the
    state is kept.  The result value is the one a win by a line of that
    symbol records, [GameResult] having no tag for a forfeit; such a
    win differs in that it records its winning line. *)
Theorem checkTimeout_forfeit (st : GameState) (now deadlineSeconds : Z) :
  state st = PLAYING -> now - lastMoveTime st >= deadlineSeconds ->
  snd (checkTimeout st now deadlineSeconds) = Forfeited
  /\ state (fst (checkTimeout st now deadlineSeconds)) = FINISHED
  /\ result (fst (checkTimeout st now deadlineSeconds)) = winOf (other (currentPlayer st))
  /\ winnerCells (fst (checkTimeout st now deadlineSeconds)) = None
  /\ board (fst (checkTimeout st now deadlineSeconds)) = board st
  /\ moveCount (fst (checkTimeout st now deadlineSeconds)) = moveCount st
  /\ (forall (st2 : GameState) (id : string) (r c now2 : Z),
        wonByLine st2 id r c now2 ->
        currentPlayer st2 = other (currentPlayer st) ->
        result (fst (submitMove st2 id r c now2))
        = result (fst (checkTimeout st now deadlineSeconds))
        /\ winnerCells (fst (submitMove st2 id r c now2)) <> None).
Proof.
  intros Hphase Hlate. unfold checkTimeout. rewrite Hphase. cbn [isTerminal].
  rewrite !bool_decide_eq_true_2 by (reflexivity || assumption). cbn.
  do 6 (split; [reflexivity|]).
  intros st2 id r c now2 (b' & l & Happly & Heval & Hacc) Hturn. revert Hacc.
  unfold submitMove. rewrite Happly, Heval.
  destruct (isTerminal (state st2)); [discriminate|].
  destruct (negb (bool_decide (0 <= r <= 2)) || _); [discriminate|].
  destruct (negb (bool_decide (state st2 = PLAYING)) || _); [discriminate|].
  intros _. cbn. rewrite Hturn. by split.
Qed.

Lemma checkTimeout_forfeit_witness :
  snd (checkTimeout (playing midGame O 3 100) 131 30) = Forfeited
  /\ state (fst (checkTimeout (playing midGame O 3 100) 131 30)) = FINISHED
  /\ result (fst (checkTimeout (playing midGame O 3 100) 131 30)) = X_WINS
  /\ winnerCells (fst (checkTimeout (playing midGame O 3 100) 131 30)) = None.
Proof.
  assert (Hlate : 131 - lastMoveTime (playing midGame O 3 100) >= 30) by (cbn; lia).
  pose proof (checkTimeout_forfeit (playing midGame O 3 100) 131 30 eq_refl Hlate)
    as (Hout & Hstate & Hresult & Hcells & _).
  repeat split; assumption.
Defined.

Lemma find_none_through (b : BoardState) (lastRow lastCol : Z) (sym : PlayerSymbol) :
  inGrid lastRow lastCol ->
  (forall l, l ∈ allLines -> {| row := lastRow; col := lastCol |} ∈ l ->
             isComplete b sym l = false) ->
  find (isComplete b sym) (linesThrough lastRow lastCol) = None.
Proof.
  intros Hrc Hnone. apply find_none_all. intros l Hl. apply Hnone.
  - by eapply linesThrough_allLines.
  - by apply linesThrough_contains.
Qed.

(** C7.  On every 3x3 board on which no line of the grid through the
    just-played cell is complete for the symbol, [checkWinCondition]
    reports no win and [evaluate] returns Draw if all 9 cells are
    occupied and Ongoing otherwise; a move that [submitMove] accepts
    into such a board finishes the match with result DRAW when the board
    is full, and otherwise passes the turn with the phase still Playing.
    The draw scenario of the specification is the instance
    [evaluate_draw_or_ongoing_witness]. *)
Theorem evaluate_draw_or_ongoing
    (b : BoardState) (lastRow lastCol : Z) (sym : PlayerSymbol) :
  isBoardState b = true -> inGrid lastRow lastCol ->
  (forall l, l ∈ allLines -> {| row := lastRow; col := lastCol |} ∈ l ->
             isComplete b sym l = false) ->
  evaluate b lastRow lastCol sym = (if isFull b then Draw else Ongoing)
  /\ wonBy b lastRow lastCol sym = Some false
  /\ (forall (st : GameState) (id : string) (now : Z),
        state st = PLAYING -> currentPlayer st = sym -> symbolOf st id = Some sym ->
        apply (board st) lastRow lastCol sym = Placed b ->
        if isFull b then
          state (fst (submitMove st id lastRow lastCol now)) = FINISHED
          /\ result (fst (submitMove st id lastRow lastCol now)) = DRAW
        else
          state (fst (submitMove st id lastRow lastCol now)) = PLAYING
          /\ result (fst (submitMove st id lastRow lastCol now)) = result st
          /\ currentPlayer (fst (submitMove st id lastRow lastCol now)) = other sym).
Proof.
  intros Hb Hrc Hnone.
  pose proof (find_none_through b lastRow lastCol sym Hrc Hnone) as Hfind.
  assert (Heval : evaluate b lastRow lastCol sym = (if isFull b then Draw else Ongoing))
    by (unfold evaluate; by rewrite Hfind).
  split; [exact Heval|]. split.
  - unfold wonBy. rewrite checkWinCondition_run by assumption. by rewrite Hfind.
  - intros st id now Hphase Hturn Hid Happly. unfold submitMove.
    rewrite Hphase, Hturn, Hid, Happly, Heval. cbn [isTerminal].
    rewrite (bool_decide_eq_true_2 (0 <= lastRow <= 2)) by apply Hrc.
    rewrite (bool_decide_eq_true_2 (0 <= lastCol <= 2)) by apply Hrc.
    rewrite !bool_decide_eq_true_2 by reflexivity. cbn [negb orb].
    destruct (isFull b); cbn; auto.
Qed.

Lemma evaluate_draw_or_ongoing_witness :
  apply beforeDraw 2 2 O = Placed drawBoard
  /\ evaluate drawBoard 2 2 O = Draw
  /\ wonBy drawBoard 2 2 O = Some false
  /\ state (fst (submitMove (playing beforeDraw O 8 100) "bob" 2 2 105)) = FINISHED
  /\ result (fst (submitMove (playing beforeDraw O 8 100) "bob" 2 2 105)) = DRAW.
Proof.
  assert (Hgrid : inGrid 2 2) by (unfold inGrid; lia).
  assert (Hnone : forall l, l ∈ allLines -> {| row := 2; col := 2 |} ∈ l ->
                            isComplete drawBoard O l = false).
  { intros l Hl _. unfold allLines in Hl.
    rewrite ?elem_of_cons, elem_of_nil in Hl.
    destruct_or!; try contradiction; subst l; reflexivity. }
  pose proof (evaluate_draw_or_ongoing drawBoard 2 2 O eq_refl Hgrid Hnone)
    as (Heval & Hwon & Hmove).
  split; [reflexivity|]. split; [exact Heval|]. split; [exact Hwon|].
  exact (Hmove (playing beforeDraw O 8 100) "bob"%string 105 eq_refl eq_refl eq_refl eq_refl).
Defined.

(** C8.  A rejected [submitMove] or [checkTimeout] returns the state it
    was given; the session answers a rejected move with one report to
    the participant who submitted it and broadcasts nothing, and a
    rejected timer tick produces no effect at all.  On the client, a
    MOVE_REJECTED message leaves the held game state and the loading
    flag as they are and changes the error alone, to the message's text
    when its data is a string. *)
Theorem rejections_leave_state_unchanged (e : Rejection) :
  (forall (st : GameState) (id : string) (r c now : Z),
     snd (submitMove st id r c now) = Rejected e ->
     fst (submitMove st id r c now) = st
     /\ forall deadlineSeconds,
          process deadlineSeconds st (MoveSubmitted id r c now) = (st, [ Report id e ]))
  /\ (forall (st : GameState) (now deadlineSeconds : Z),
        snd (checkTimeout st now deadlineSeconds) = Rejected e ->
        fst (checkTimeout st now deadlineSeconds) = st
        /\ process deadlineSeconds st (TimerTick now) = (st, []))
  /\ (forall (h : UseGameState.Hook) (d : UseGameState.MessageData),
        let h' := UseGameState.handleMessage h
                    (UseGameState.Parsed
                       {| UseGameState.type := Some MOVE_REJECTED;
                          UseGameState.data := d |}) in
        UseGameState.gameState h' = UseGameState.gameState h
        /\ UseGameState.isLoading h' = UseGameState.isLoading h
        /\ UseGameState.error h'
           = match d with
             | UseGameState.Text s => Some s
             | _ => UseGameState.error h
             end).
Proof.
  split; [|split].
  - intros st id r c now Hrej. split; [by eapply submitMove_Rejected|].
    intros deadlineSeconds. cbn [process].
    pose proof (submitMove_Rejected st id r c now e Hrej) as Hsame.
    destruct (submitMove st id r c now) as [st' out]. cbn in Hrej, Hsame. by subst.
  - intros st now deadlineSeconds Hrej. split; [by eapply checkTimeout_Rejected|].
    cbn [process].
    pose proof (checkTimeout_Rejected st now deadlineSeconds e Hrej) as Hsame.
    destruct (checkTimeout st now deadlineSeconds) as [st' out]. cbn in Hrej, Hsame. by subst.
  - intros h d. by destruct d, h.
Qed.

Lemma rejections_leave_state_unchanged_witness :
  process 30 (playing midGame O 3 100) (MoveSubmitted "bob" 0 0 101)
    = (playing midGame O 3 100, [ Report "bob" CellOccupied ])
  /\ process 30 (playing midGame O 3 100) (MoveSubmitted "alice" 1 1 101)
    = (playing midGame O 3 100, [ Report "alice" NotYourTurn ])
  /\ process 30 (playing midGame O 3 100) (MoveSubmitted "bob" 0 (-1) 101)
    = (playing midGame O 3 100, [ Report "bob" OutOfBounds ])
  /\ process 30 finishedMatch (MoveSubmitted "bob" 1 2 101)
    = (finishedMatch, [ Report "bob" MatchAlreadyFinished ]).
Proof.
  split; [|split; [|split]].
  - apply (proj1 (rejections_leave_state_unchanged CellOccupied)
             (playing midGame O 3 100) "bob"%string 0 0 101 eq_refl).
  - apply (proj1 (rejections_leave_state_unchanged NotYourTurn)
             (playing midGame O 3 100) "alice"%string 1 1 101 eq_refl).
  - apply (proj1 (rejections_leave_state_unchanged OutOfBounds)
             (playing midGame O 3 100) "bob"%string 0 (-1) 101 eq_refl).
  - apply (proj1 (rejections_leave_state_unchanged MatchAlreadyFinished)
             finishedMatch "bob"%string 1 2 101 eq_refl).
Defined.

(** ** The board component *)

Section CellClick.

Import GameBoard.

Variables (props : GameBoardProps) (r c : Z).

Lemma isMyTurn_true :
  isMyTurn props = true <->
  state (gameState props) = PLAYING
  /\ exists p, currentPlayerOf props = Some p /\ currentUserId props = Some (userId p).
Proof using Type.
  unfold isMyTurn, isPlaying. rewrite andb_true_iff, bool_decide_eq_true.
  destruct (currentPlayerOf props) as [p|].
  - rewrite bool_decide_eq_true. split.
    + intros [Hid Hphase]. eauto.
    + intros [Hphase (q & [= <-] & Hid)]. auto.
  - split; [intros [[=] _]|intros [_ (q & [=] & _)]].
Qed.

Lemma truthy_true (flag : option bool) : truthy flag = true <-> flag = Some true.
Proof using Type. destruct flag as [[|]|]; cbn; split; congruence. Qed.

(** C10.  [handleCellClick] invokes [onCellClick], with the clicked
    coordinates, exactly when the board is not disabled, the match is
    PLAYING with the clicking user's id equal to the on-turn player's
    id, and [board[row][col]] is the empty string; on every other click
    on a cell of an existing row it returns without invoking it. *)
Theorem handleCellClick_guard :
  (handleCellClick props r c = Invoked r c <-> clickAllowed props r c)
  /\ (forall r' c', handleCellClick props r c = Invoked r' c' -> r' = r /\ c' = c)
  /\ (is_Some (jsIndex (board (gameState props)) r) -> ~ clickAllowed props r c ->
      handleCellClick props r c = Blocked).
Proof using Type.
  unfold clickAllowed, handleCellClick, cellAt. rewrite <- isMyTurn_true.
  destruct (jsIndex (board (gameState props)) r) as [cells|].
  - destruct (truthy (disabled props)) eqn:Hdis.
    { apply truthy_true in Hdis. split; [|split].
      - split; [discriminate|]. intros [Hnot _]. contradiction.
      - discriminate.
      - reflexivity. }
    assert (Hflag : disabled props <> Some true)
      by (intros Hflag; apply truthy_true in Hflag; congruence).
    destruct (isMyTurn props).
    + cbn [negb]. case_bool_decide as Hcell; cbn [negb].
      * split; [|split]; [tauto| by intros ? ? [= <- <-] |tauto].
      * split; [|split]; [|discriminate|reflexivity].
        split; [discriminate|]. intros (_ & _ & Hempty). contradiction.
    + cbn [negb]. split; [|split]; [|discriminate|reflexivity].
      split; [discriminate|]. intros (_ & [=] & _).
  - split; [|split].
    + split; [discriminate|]. intros (_ & _ & [=]).
    + discriminate.
    + intros [? [=]].
Qed.

End CellClick.

Lemma handleCellClick_guard_witness :
  GameBoard.handleCellClick
    {| GameBoard.gameState := playing midGame O 3 100;
       GameBoard.currentUserId := Some "bob"%string;
       GameBoard.disabled := Some false |} 1 1
  = GameBoard.Invoked 1 1
  /\ GameBoard.handleCellClick
       {| GameBoard.gameState := playing midGame O 3 100;
          GameBoard.currentUserId := Some "alice"%string;
          GameBoard.disabled := None |} 1 1
     = GameBoard.Blocked.
Proof.
  split.
  - apply (proj1 (handleCellClick_guard _ 1 1)).
    repeat split; [discriminate|]. exists bob. split; reflexivity.
  - apply (proj2 (proj2 (handleCellClick_guard _ 1 1))).
    + cbn. eauto.
    + intros (_ & [_ (p & [= <-] & [=])] & _).
Defined.

(** * Further properties of the sources *)

(** ** The win evaluator on arbitrary input *)

Lemma bind_value_inv {A B : Type} (m : Js.Run A) (k : A -> Js.Run B) (y : B) :
  Js.value (Js.bind m k) = Some y ->
  exists a, Js.value m = Some a /\ Js.value (k a) = Some y.
Proof.
  destruct m as [t [a|]]; cbn; [|discriminate].
  destruct (k a) as [t' o] eqn:Hk. cbn. intros ->. exists a. by rewrite Hk.
Qed.

(** X1.  Whatever the board (of any shape) and the coordinates, a call
    of [checkWinCondition] that returns gives either [won = false]
    without winning cells or [won = true] with the cells of the row of
    the last move, of its column or of a diagonal. *)
Theorem checkWinCondition_result_shape
    (b : BoardState) (lastRow lastCol : Z) (sym : PlayerSymbol) (res : WinResult) :
  Js.value (checkWinCondition b lastRow lastCol sym) = Some res ->
  (won res = false /\ winningCells res = None)
  \/ (won res = true
      /\ exists l, winningCells res = Some l
           /\ l ∈ [ rowLine lastRow; colLine lastCol; mainDiagonal; antiDiagonal ]).
Proof.
  unfold checkWinCondition. intros Hres.
  apply bind_value_inv in Hres as ([|] & _ & Hres).
  { cbn in Hres. injection Hres as <-. right. split; [reflexivity|].
    eexists. split; [reflexivity|]. rewrite !elem_of_cons. auto. }
  apply bind_value_inv in Hres as ([|] & _ & Hres).
  { cbn in Hres. injection Hres as <-. right. split; [reflexivity|].
    eexists. split; [reflexivity|]. rewrite !elem_of_cons. auto. }
  apply bind_value_inv in Hres as ([|] & _ & Hres).
  { cbn in Hres. injection Hres as <-. right. split; [reflexivity|].
    eexists. split; [reflexivity|]. rewrite !elem_of_cons. auto. }
  apply bind_value_inv in Hres as ([|] & _ & Hres).
  { cbn in Hres. injection Hres as <-. right. split; [reflexivity|].
    eexists. split; [reflexivity|]. rewrite !elem_of_cons. auto. }
  cbn in Hres. injection Hres as <-. by left.
Qed.

Lemma checkWinCondition_result_shape_witness :
  exists l, winningCells {| won := true; winningCells := Some (rowLine 0) |} = Some l
    /\ l ∈ [ rowLine 0; colLine 1; mainDiagonal; antiDiagonal ].
Proof.
  destruct (checkWinCondition_result_shape [ [X_; X_; X_] ] 0 1 X
              {| won := true; winningCells := Some (rowLine 0) |} eq_refl)
    as [[Hwon _] | [_ Hline]].
  - discriminate Hwon.
  - exact Hline.
Defined.

Lemma find_Some_elem {A : Type} (f : A -> bool) (l : list A) (x : A) :
  find f l = Some x -> x ∈ l /\ f x = true.
Proof.
  intros Hfind. apply find_some in Hfind as [Hin Hf]. by rewrite list_elem_of_In.
Qed.

(** X2.  On a 3x3 board and from a cell of the grid, a reported win is
    genuine: the winning cells are one of the eight lines of the grid,
    the line passes through the last move, and each of its cells holds
    the symbol. *)
Theorem checkWinCondition_win_is_genuine
    (b : BoardState) (lastRow lastCol : Z) (sym : PlayerSymbol) (res : WinResult) :
  isBoardState b = true -> inGrid lastRow lastCol ->
  Js.value (checkWinCondition b lastRow lastCol sym) = Some res ->
  won res = true ->
  exists l, winningCells res = Some l
    /\ l ∈ allLines
    /\ {| row := lastRow; col := lastCol |} ∈ l
    /\ forall p, p ∈ l -> cellAt b (row p) (col p) = Some (Mark sym).
Proof.
  intros Hb Hrc Hres Hwon. rewrite checkWinCondition_run in Hres by assumption.
  assert (Hverdict : res = verdict (find (isComplete b sym) (linesThrough lastRow lastCol)))
    by congruence.
  clear Hres. subst res.
  destruct (find (isComplete b sym) (linesThrough lastRow lastCol)) as [l|] eqn:Hfind;
    [|cbn in Hwon; discriminate].
  apply find_Some_elem in Hfind as [Hl Hcomplete].
  exists l. split; [reflexivity|]. split; [by eapply linesThrough_allLines|].
  split; [by apply linesThrough_contains|].
  intros p Hp. unfold isComplete in Hcomplete. rewrite forallb_forall in Hcomplete.
  apply list_elem_of_In, Hcomplete in Hp. by apply bool_decide_eq_true in Hp.
Qed.

Lemma checkWinCondition_win_is_genuine_witness :
  exists l, Some (colLine 0) = Some l
    /\ l ∈ allLines
    /\ {| row := 2; col := 0 |} ∈ l
    /\ forall p, p ∈ l ->
         cellAt [ [X_; O_; E_]; [X_; O_; E_]; [X_; E_; E_] ] (row p) (col p) = Some (Mark X).
Proof.
  assert (Hgrid : inGrid 2 0) by (unfold inGrid; lia).
  exact (checkWinCondition_win_is_genuine
           [ [X_; O_; E_]; [X_; O_; E_]; [X_; E_; E_] ] 2 0 X
           {| won := true; winningCells := Some (colLine 0) |}
           eq_refl Hgrid eq_refl eq_refl).
Defined.

(** X3.  The evaluation from a cell depends on the cells of the lines
    through it and on nothing else: on two 3x3 boards that agree on
    these cells, [checkWinCondition] reads the same cells and returns
    the same result. *)
Theorem checkWinCondition_local
    (b1 b2 : BoardState) (lastRow lastCol : Z) (sym : PlayerSymbol) :
  isBoardState b1 = true -> isBoardState b2 = true -> inGrid lastRow lastCol ->
  (forall p, p ∈ concat (linesThrough lastRow lastCol) ->
             cellAt b1 (row p) (col p) = cellAt b2 (row p) (col p)) ->
  checkWinCondition b1 lastRow lastCol sym = checkWinCondition b2 lastRow lastCol sym.
Proof.
  intros Hb1 Hb2 [Hr Hc] Hagree.
  assert (Hholds : forall p, p ∈ concat (linesThrough lastRow lastCol) ->
                             holds b1 sym p = holds b2 sym p).
  { intros p Hp. unfold holds. by rewrite (Hagree p Hp). }
  clear Hagree. unfold checkWinCondition.
  rewrite !(cellIs_row_defined b1 Hb1), !(cellIs_row_defined b2 Hb2) by lia.
  unfold linesThrough, rowLine, colLine, mainDiagonal, antiDiagonal in Hholds.
  destruct (bool_decide (lastRow = lastCol)), (bool_decide (lastRow + lastCol = 2));
    cbn [app concat] in Hholds;
    unfold andAlso, Js.bind, Js.ret; cbn;
    rewrite !Hholds by (rewrite !elem_of_cons; auto 20);
    reflexivity.
Qed.

Lemma checkWinCondition_local_witness :
  checkWinCondition beforeHorizontalWin 0 2 X
  = checkWinCondition [ [X_; X_; E_]; [X_; O_; E_]; [E_; O_; E_] ] 0 2 X.
Proof.
  apply checkWinCondition_local; try reflexivity.
  - unfold inGrid; lia.
  - intros p Hp.
    change (concat (linesThrough 0 2))
      with (rowLine 0 ++ colLine 2 ++ antiDiagonal) in Hp.
    unfold rowLine, colLine, antiDiagonal in Hp. cbn [app] in Hp.
    rewrite !elem_of_cons, elem_of_nil in Hp.
    destruct_or!; try contradiction; subst p; reflexivity.
Defined.

Lemma holds_col_outside (b : BoardState) (sym : PlayerSymbol) (i c : Z) :
  isBoardState b = true -> ~ 0 <= c <= 2 -> holds b sym {| row := i; col := c |} = false.
Proof.
  intros Hb Hc. unfold holds, cellAt. cbn [row col]. apply bool_decide_eq_false.
  destruct (jsIndex b i) as [cells|] eqn:Hrow; [|discriminate].
  intros Hcell. apply jsIndex_Some_length in Hcell.
  rewrite (isBoardState_cols b i cells Hb Hrow) in Hcell. lia.
Qed.

(** X4.  A column index outside [0,2] is tolerated: with the row in
    [0,2], [checkWinCondition] on a 3x3 board throws nothing, the reads
    of the missing column give [undefined], and the result is that of
    the row of the last move alone. *)
Theorem checkWinCondition_column_outside
    (b : BoardState) (lastRow lastCol : Z) (sym : PlayerSymbol) :
  isBoardState b = true -> 0 <= lastRow <= 2 -> ~ 0 <= lastCol <= 2 ->
  Js.value (checkWinCondition b lastRow lastCol sym)
  = Some (verdict (if isComplete b sym (rowLine lastRow)
                   then Some (rowLine lastRow) else None)).
Proof.
  intros Hb Hr Hc. unfold checkWinCondition.
  rewrite !(cellIs_row_defined b Hb) by lia.
  rewrite !(holds_col_outside b sym _ lastCol Hb Hc).
  rewrite (bool_decide_eq_false_2 (lastRow = lastCol)) by lia.
  rewrite (bool_decide_eq_false_2 (lastRow + lastCol = 2)) by lia.
  unfold isComplete, rowLine, line. cbn [forallb].
  generalize (holds b sym {| row := lastRow; col := 0 |}).
  generalize (holds b sym {| row := lastRow; col := 1 |}).
  generalize (holds b sym {| row := lastRow; col := 2 |}).
  intros; unfold andAlso, Js.bind, Js.ret, Js.value; split_run; reflexivity.
Qed.

Lemma checkWinCondition_column_outside_witness :
  Js.value (checkWinCondition [ [O_; O_; O_]; [X_; X_; E_]; [X_; E_; E_] ] 0 7 O)
  = Some {| won := true; winningCells := Some (rowLine 0) |}.
Proof.
  rewrite checkWinCondition_column_outside; [reflexivity|reflexivity|lia|lia].
Defined.

(** X5.  A row index outside [0,2] is fatal: on a 3x3 board
    [checkWinCondition] evaluates the single expression
    [board[lastRow][0]] and throws, whatever the column and the symbol. *)
Theorem checkWinCondition_row_outside
    (b : BoardState) (lastRow lastCol : Z) (sym : PlayerSymbol) :
  isBoardState b = true -> ~ 0 <= lastRow <= 2 ->
  checkWinCondition b lastRow lastCol sym = ([ {| row := lastRow; col := 0 |} ], None).
Proof.
  intros Hb Hr. unfold checkWinCondition, andAlso, cellIs, readCell.
  destruct (jsIndex b lastRow) as [cells|] eqn:Hrow; [|reflexivity].
  apply jsIndex_Some_length in Hrow. rewrite (isBoardState_rows b Hb) in Hrow. lia.
Qed.

Lemma checkWinCondition_row_outside_witness :
  checkWinCondition drawBoard (-1) 1 X = ([ {| row := -1; col := 0 |} ], None).
Proof.
  apply checkWinCondition_row_outside; [reflexivity|lia].
Defined.

(** ** The rendered board *)

Lemma buttons_lookup (props : GameBoard.GameBoardProps) (i j : Z) (cell : CellValue) :
  (i, j, cell) ∈ GameBoardRender.buttons props ->
  exists cells, jsIndex (board (GameBoard.gameState props)) i = Some cells
                /\ jsIndex cells j = Some cell.
Proof.
  unfold GameBoardRender.buttons. rewrite list_elem_of_In, in_concat.
  intros (l & Hl & Hin). apply list_elem_of_In in Hl. apply list_elem_of_In in Hin.
  apply elem_of_lookup_imap_1 in Hl as (n & cells & -> & Hcells).
  apply elem_of_lookup_imap_1 in Hin as (m & cell' & [= -> -> ->] & Hcell).
  exists cells. unfold jsIndex. rewrite !decide_True by lia.
  by rewrite !Nat2Z.id.
Qed.

(** X6.  Every button of the rendered board is enabled exactly when a
    click on it goes through: its [disabled] attribute is false if and
    only if [handleCellClick], called with the button's indices, invokes
    [onCellClick]. *)
Theorem button_enabled_iff_click_passes
    (props : GameBoard.GameBoardProps) (i j : Z) (cell : CellValue) :
  (i, j, cell) ∈ GameBoardRender.buttons props ->
  GameBoardRender.isDisabled props cell = false
  <-> GameBoard.handleCellClick props i j = GameBoard.Invoked i j.
Proof.
  intros Hbutton. apply buttons_lookup in Hbutton as (cells & Hcells & Hcell).
  unfold GameBoardRender.isDisabled, GameBoard.handleCellClick.
  rewrite Hcells, Hcell.
  destruct (GameBoard.truthy _), (GameBoard.isMyTurn props), cell; cbn;
    repeat case_bool_decide; cbn; split; intros; congruence.
Qed.

Lemma button_enabled_iff_click_passes_witness :
  GameBoardRender.isDisabled
    {| GameBoard.gameState := playing midGame O 3 100;
       GameBoard.currentUserId := Some "bob"%string;
       GameBoard.disabled := None |} E_ = false
  <-> GameBoard.handleCellClick
        {| GameBoard.gameState := playing midGame O 3 100;
           GameBoard.currentUserId := Some "bob"%string;
           GameBoard.disabled := None |} 2 1 = GameBoard.Invoked 2 1.
Proof.
  apply button_enabled_iff_click_passes.
  unfold GameBoardRender.buttons. cbn. rewrite !elem_of_cons. auto 20.
Defined.

Lemma isWinnerCell_elem (props : GameBoard.GameBoardProps) (r c : Z) :
  GameBoardRender.isWinnerCell props r c = true
  <-> {| row := r; col := c |} ∈ GameBoardRender.winnerCellsOf props.
Proof.
  unfold GameBoardRender.isWinnerCell. rewrite existsb_exists. split.
  - intros ([r' c'] & Hin & Heq). apply andb_true_iff in Heq as [Hr Hc].
    apply bool_decide_eq_true in Hr, Hc. cbn in Hr, Hc. subst.
    by apply list_elem_of_In.
  - intros Hin. exists {| row := r; col := c |}. split; [by apply list_elem_of_In|].
    cbn. by rewrite !bool_decide_eq_true_2.
Qed.

(** X7.  When the displayed state carries as [winnerCells] the winning
    cells that [checkWinCondition] reports for its board, the board
    highlights exactly three cells of the grid, and every highlighted
    cell holds the winner's symbol. *)
Theorem winner_highlight_is_the_line
    (props : GameBoard.GameBoardProps) (r c : Z) (sym : PlayerSymbol) (res : WinResult) :
  isBoardState (board (GameBoard.gameState props)) = true -> inGrid r c ->
  Js.value (checkWinCondition (board (GameBoard.gameState props)) r c sym) = Some res ->
  won res = true ->
  winnerCells (GameBoard.gameState props) = winningCells res ->
  length (filter (fun p => GameBoardRender.isWinnerCell props (row p) (col p) = true)
                 allCells) = 3%nat
  /\ forall i j, GameBoardRender.isWinnerCell props i j = true ->
                 cellAt (board (GameBoard.gameState props)) i j = Some (Mark sym).
Proof.
  intros Hb Hrc Hres Hwon Hcells.
  rewrite checkWinCondition_run in Hres by assumption.
  assert (Hverdict : res = verdict (find (isComplete (board (GameBoard.gameState props)) sym)
                                        (linesThrough r c))) by congruence.
  clear Hres. subst res.
  destruct (find _ (linesThrough r c)) as [l|] eqn:Hfind; [|cbn in Hwon; discriminate].
  apply find_Some_elem in Hfind as [Hl Hcomplete]. cbn in Hcells.
  split.
  - apply (linesThrough_allLines r c l Hrc) in Hl.
    unfold GameBoardRender.isWinnerCell, GameBoardRender.winnerCellsOf. rewrite Hcells.
    unfold allLines in Hl. rewrite !elem_of_cons, elem_of_nil in Hl.
    destruct_or!; try contradiction; subst l; vm_compute; reflexivity.
  - intros i j Hmark. apply isWinnerCell_elem in Hmark.
    unfold GameBoardRender.winnerCellsOf in Hmark. rewrite Hcells in Hmark.
    unfold isComplete in Hcomplete. rewrite forallb_forall in Hcomplete.
    apply list_elem_of_In, Hcomplete in Hmark. by apply bool_decide_eq_true in Hmark.
Qed.

Lemma winner_highlight_is_the_line_witness :
  length (filter (fun p => GameBoardRender.isWinnerCell
                             {| GameBoard.gameState := finishedMatch;
                                GameBoard.currentUserId := Some "bob"%string;
                                GameBoard.disabled := Some true |} (row p) (col p) = true)
                 allCells) = 3%nat
  /\ forall i j, GameBoardRender.isWinnerCell
                   {| GameBoard.gameState := finishedMatch;
                      GameBoard.currentUserId := Some "bob"%string;
                      GameBoard.disabled := Some true |} i j = true ->
                 cellAt (board finishedMatch) i j = Some (Mark X).
Proof.
  assert (Hgrid : inGrid 0 2) by (unfold inGrid; lia).
  exact (winner_highlight_is_the_line
           {| GameBoard.gameState := finishedMatch;
              GameBoard.currentUserId := Some "bob"%string;
              GameBoard.disabled := Some true |} 0 2 X
           {| won := true; winningCells := Some (rowLine 0) |}
           eq_refl Hgrid eq_refl eq_refl eq_refl).
Defined.

(** ** The status line *)

(** X8.  In [MatchStatus] the colour of the status line follows its
    message: green with 'You Win', yellow with the draw, red with 'You
    Lose' and 'Game Over', blue with "Your Turn", grey with every other
    message. *)
Theorem status_colour_follows_message (props : MatchStatus.MatchStatusProps) :
  MatchStatus.getStatusColor props
  = match MatchStatus.getStatusMessage props with
    | MatchStatus.YouWin => "text-green-600"
    | MatchStatus.ItsADraw => "text-yellow-600"
    | MatchStatus.YouLose | MatchStatus.GameOver => "text-red-600"
    | MatchStatus.YourTurn => "text-blue-600"
    | _ => "text-gray-600"
    end%string.
Proof.
  unfold MatchStatus.getStatusColor, MatchStatus.getStatusMessage, MatchStatus.isPlaying.
  destruct (MatchStatus.sameUser (MatchStatus.playerX' props) (MatchStatus.currentUserId props)),
           (MatchStatus.sameUser (MatchStatus.playerO' props) (MatchStatus.currentUserId props)),
           (MatchStatus.isMyTurn props),
           (state (MatchStatus.gameState props)), (result (MatchStatus.gameState props));
    reflexivity.
Qed.

(** X9.  The fallback 'Unknown status' of [getStatusMessage] is never
    shown: each of the four match states has a message of its own. *)
Theorem status_message_is_known (props : MatchStatus.MatchStatusProps) :
  MatchStatus.getStatusMessage props <> MatchStatus.UnknownStatus.
Proof.
  unfold MatchStatus.getStatusMessage, MatchStatus.isPlaying.
  destruct (MatchStatus.sameUser (MatchStatus.playerX' props) (MatchStatus.currentUserId props)),
           (MatchStatus.sameUser (MatchStatus.playerO' props) (MatchStatus.currentUserId props)),
           (MatchStatus.isMyTurn props),
           (state (MatchStatus.gameState props)), (result (MatchStatus.gameState props));
    discriminate.
Qed.

(** X10.  The status line and the board agree on whose turn it is:
    [MatchStatus] shows "Your Turn" exactly when [isMyTurn] of
    [GameBoard], computed from the same state and user, is true. *)
Theorem your_turn_iff_board_turn (g : GameState) (uid : option string) (flag : option bool) :
  MatchStatus.getStatusMessage
    {| MatchStatus.gameState := g; MatchStatus.currentUserId := uid |} = MatchStatus.YourTurn
  <-> GameBoard.isMyTurn
        {| GameBoard.gameState := g; GameBoard.currentUserId := uid;
           GameBoard.disabled := flag |} = true.
Proof.
  unfold MatchStatus.getStatusMessage, MatchStatus.isPlaying, MatchStatus.isMyTurn,
    GameBoard.isMyTurn, GameBoard.isPlaying, GameBoard.currentPlayerOf,
    MatchStatus.playerX', MatchStatus.playerO'.
  cbn [MatchStatus.gameState MatchStatus.currentUserId
       GameBoard.gameState GameBoard.currentUserId].
  change (match playerOf (players g) (currentPlayer g) with
          | Some p => bool_decide (uid = Some (userId p))
          | None => false
          end)
    with (MatchStatus.sameUser (playerOf (players g) (currentPlayer g)) uid).
  destruct (MatchStatus.sameUser (playerX (players g)) uid),
           (MatchStatus.sameUser (playerO (players g)) uid),
           (MatchStatus.sameUser (playerOf (players g) (currentPlayer g)) uid),
           (state g), (result g);
    vm_compute; split; intros; congruence.
Qed.

(** X11.  [getPlayerName] never returns the empty string: a missing
    player is 'Waiting...', the user is 'You', and an opponent without
    a username is 'Opponent'. *)
Theorem player_name_not_empty
    (props : MatchStatus.MatchStatusProps) (player : option Player) :
  MatchStatus.getPlayerName props player <> ""%string.
Proof.
  unfold MatchStatus.getPlayerName. destruct player as [p|]; [|discriminate].
  repeat case_bool_decide; try discriminate. assumption.
Qed.

(** ** From a click to the move sent *)

(** X12.  A click on cell (r, c) of the game view sends at most one
    [make_move] call, with the match id and the clicked coordinates, and
    it sends one exactly when the connection is complete (socket,
    connected, match id, client, session), no move is loading, and the
    held state is PLAYING with the user on turn and the cell empty. *)
Theorem click_sends_move_iff
    (conn : UseGameState.Connection) (h : UseGameState.Hook) (user_id : option string)
    (r c : Z) (reply : UseGameState.RpcReply) :
  (snd (App.cellClicked conn h user_id r c reply) = []
   \/ snd (App.cellClicked conn h user_id r c reply)
      = [ {| UseGameState.rpcMatchId := UseGameState.matchId conn;
             UseGameState.rpcRow := r; UseGameState.rpcCol := c |} ])
  /\ (snd (App.cellClicked conn h user_id r c reply) <> []
      <-> (UseGameState.socket conn = true /\ UseGameState.isConnected conn = true
           /\ UseGameState.hasMatchId conn = true
           /\ UseGameState.client conn = true /\ UseGameState.session conn = true)
          /\ UseGameState.isLoading h = false
          /\ exists g, UseGameState.gameState h = Some g
               /\ (state g = PLAYING
                   /\ exists p, playerOf (players g) (currentPlayer g) = Some p
                                /\ App.currentUserIdOf user_id = Some (userId p))
               /\ cellAt (board g) r c = Some Empty).
Proof.
  unfold App.cellClicked. destruct (UseGameState.gameState h) as [g|] eqn:Hheld.
  2: { split; [by left|]. split; [done|]. by intros (_ & _ & g & [=] & _). }
  pose proof (isMyTurn_true (App.boardProps h g user_id)) as Hturn.
  cbn [App.boardProps GameBoard.gameState GameBoard.currentUserId] in Hturn.
  change (GameBoard.currentPlayerOf (App.boardProps h g user_id))
    with (playerOf (players g) (currentPlayer g)) in Hturn.
  assert (Hrhs : forall (P : Prop) (Q : GameState -> Prop),
             (P /\ UseGameState.isLoading h = false
              /\ exists g', Some g = Some g'
                   /\ (state g' = PLAYING
                       /\ exists p, playerOf (players g') (currentPlayer g') = Some p
                                    /\ App.currentUserIdOf user_id = Some (userId p))
                   /\ Q g')
             <-> (P /\ UseGameState.isLoading h = false
                  /\ GameBoard.isMyTurn (App.boardProps h g user_id) = true /\ Q g)).
  { intros P Q. rewrite Hturn. split.
    - intros (HP & Hload & g' & [= <-] & Hplay & HQ). auto.
    - intros (HP & Hload & Hplay & HQ). eauto 10. }
  rewrite (Hrhs _ (fun g' => cellAt (board g') r c = Some Empty)). clear Hrhs.
  assert (Hplaying : GameBoard.isMyTurn (App.boardProps h g user_id) = true ->
                     state g = PLAYING) by (intros Hm; by apply Hturn in Hm as [? _]).
  clear Hturn.
  unfold GameBoard.handleCellClick, cellAt, App.handleCellClick, UseGameState.makeMove.
  cbn [App.boardProps GameBoard.gameState GameBoard.disabled GameBoard.truthy].
  rewrite Hheld.
  destruct (jsIndex (board g) r) as [cells|].
  2: { split; [by left|]. split; [done|]. by intros (_ & _ & _ & [=]). }
  destruct (GameBoard.isMyTurn (App.boardProps h g user_id)).
  2: { destruct (_ || _); cbn; (split; [by left|]);
       (split; [done|]); by intros (_ & _ & [=] & _). }
  rewrite (bool_decide_eq_true_2 (state g = PLAYING)) by auto.
  destruct (UseGameState.isLoading h); cbn.
  { split; [by left|]. split; [done|]. by intros (_ & [=] & _). }
  case_bool_decide as Hcell; cbn.
  2: { split; [by left|]. split; [done|]. by intros (_ & _ & _ & ?). }
  destruct (UseGameState.hasMatchId conn); cbn.
  2: { split; [by left|]. split; [done|]. by intros ((_ & _ & [=] & _) & _). }
  destruct (UseGameState.socket conn); cbn.
  2: { split; [by left|]. split; [done|]. by intros (([=] & _) & _). }
  destruct (UseGameState.isConnected conn); cbn.
  2: { split; [by left|]. split; [done|]. by intros ((_ & [=] & _) & _). }
  destruct (UseGameState.client conn); cbn.
  2: { split; [by left|]. split; [done|]. by intros ((_ & _ & _ & [=] & _) & _). }
  destruct (UseGameState.session conn); cbn.
  2: { split; [by left|]. split; [done|]. by intros ((_ & _ & _ & _ & [=]) & _). }
  destruct reply as [| |[|] [g'|]]; cbn; (split; [by right|]); split; try done; auto 10.
Qed.

(** X13.  For a finished match the game-over heading of the view shows
    at most one text, and it is the one of the status line: 'You Win'
    with 'You Win', 'You Lose' with 'You Lose', the draw with the draw,
    and nothing when the result is still ONGOING (where the status line
    says 'Game Over'). *)
Theorem heading_agrees_with_status (g : GameState) (uid : option string) :
  state g = FINISHED ->
  App.gameOverHeading g uid
  = match MatchStatus.getStatusMessage
            {| MatchStatus.gameState := g; MatchStatus.currentUserId := uid |} with
    | MatchStatus.YouWin => [ App.HeadWin ]
    | MatchStatus.YouLose => [ App.HeadLose ]
    | MatchStatus.ItsADraw => [ App.HeadDraw ]
    | _ => []
    end.
Proof.
  intros Hphase.
  unfold App.gameOverHeading, App.shown, MatchStatus.getStatusMessage,
    MatchStatus.playerX', MatchStatus.playerO'.
  cbn [MatchStatus.gameState MatchStatus.currentUserId]. rewrite Hphase.
  destruct (MatchStatus.sameUser (playerX (players g)) uid),
           (MatchStatus.sameUser (playerO (players g)) uid),
           (result g); reflexivity.
Qed.

Lemma heading_agrees_with_status_witness :
  App.gameOverHeading finishedMatch (Some "bob"%string) = [ App.HeadLose ].
Proof.
  rewrite (heading_agrees_with_status finishedMatch (Some "bob"%string) eq_refl).
  reflexivity.
Defined.

(** ** The game-state hook *)

(** X14.  Handling a socket message twice leaves the hook as handling it
    once does: a duplicated delivery is harmless. *)
Theorem handleMessage_idempotent (h : UseGameState.Hook) (incoming : UseGameState.Incoming) :
  UseGameState.handleMessage (UseGameState.handleMessage h incoming) incoming
  = UseGameState.handleMessage h incoming.
Proof.
  destruct incoming as [| |[[t|] d]]; [reflexivity|reflexivity| |reflexivity].
  destruct t, d; reflexivity.
Qed.

(** X15.  No socket message changes the loading flag, and the held game
    state changes only with a GAME_STATE, MOVE_ACCEPTED, PLAYER_JOINED
    or GAME_OVER message that carries a state, which becomes the held
    state; a PLAYER_LEFT message, even with a state in it, changes
    nothing. *)
Theorem handleMessage_updates (h : UseGameState.Hook) (incoming : UseGameState.Incoming) :
  UseGameState.isLoading (UseGameState.handleMessage h incoming) = UseGameState.isLoading h
  /\ (UseGameState.gameState (UseGameState.handleMessage h incoming)
      <> UseGameState.gameState h ->
      exists t g,
        incoming = UseGameState.Parsed
                     {| UseGameState.type := Some t;
                        UseGameState.data := UseGameState.StateData g |}
        /\ t ∈ [ GAME_STATE; MOVE_ACCEPTED; PLAYER_JOINED; GAME_OVER ]
        /\ UseGameState.gameState (UseGameState.handleMessage h incoming) = Some g)
  /\ (forall d, UseGameState.handleMessage h
                  (UseGameState.Parsed {| UseGameState.type := Some PLAYER_LEFT;
                                          UseGameState.data := d |}) = h).
Proof.
  split; [|split].
  - destruct incoming as [| |[[t|] d]]; try reflexivity. destruct t, d; reflexivity.
  - destruct incoming as [| |[[t|] d]]; try (intros Hne; by destruct Hne).
    destruct t, d; cbn; try (intros Hne; by destruct Hne); intros _;
      eexists _, _; (split; [reflexivity|]); (split; [|reflexivity]);
      rewrite !elem_of_cons; auto.
  - reflexivity.
Qed.

Lemma handleMessage_updates_witness :
  exists t g,
    UseGameState.Parsed {| UseGameState.type := Some GAME_OVER;
                           UseGameState.data := UseGameState.StateData finishedMatch |}
    = UseGameState.Parsed {| UseGameState.type := Some t;
                             UseGameState.data := UseGameState.StateData g |}
    /\ t ∈ [ GAME_STATE; MOVE_ACCEPTED; PLAYER_JOINED; GAME_OVER ]
    /\ UseGameState.gameState
         (UseGameState.handleMessage
            {| UseGameState.gameState := Some (playing beforeHorizontalWin X 4 30);
               UseGameState.isLoading := false; UseGameState.error := None |}
            (UseGameState.Parsed {| UseGameState.type := Some GAME_OVER;
                                    UseGameState.data := UseGameState.StateData finishedMatch |}))
       = Some g.
Proof.
  apply (proj1 (proj2 (handleMessage_updates
          {| UseGameState.gameState := Some (playing beforeHorizontalWin X 4 30);
             UseGameState.isLoading := false; UseGameState.error := None |}
          (UseGameState.Parsed {| UseGameState.type := Some GAME_OVER;
                                  UseGameState.data := UseGameState.StateData finishedMatch |})))).
  cbn. intros [=].
Defined.

(** X16.  [makeMove] replaces the held game state only when the RPC
    answers with success and a state, and then by that state, having
    sent the call; and whenever it has sent a call the loading flag is
    off afterwards, whatever the answer. *)
Theorem makeMove_updates
    (conn : UseGameState.Connection) (h : UseGameState.Hook) (r c : Z)
    (reply : UseGameState.RpcReply) :
  (UseGameState.gameState (fst (UseGameState.makeMove conn h r c reply))
   <> UseGameState.gameState h ->
   exists g', reply = UseGameState.Payload true (Some g')
     /\ UseGameState.gameState (fst (UseGameState.makeMove conn h r c reply)) = Some g'
     /\ snd (UseGameState.makeMove conn h r c reply) <> [])
  /\ (snd (UseGameState.makeMove conn h r c reply) <> [] ->
      UseGameState.isLoading (fst (UseGameState.makeMove conn h r c reply)) = false).
Proof.
  unfold UseGameState.makeMove.
  destruct (negb _ || negb _ || negb _); [by split|].
  destruct (UseGameState.gameState h) as [g|]; [|by split].
  destruct (negb (bool_decide _)); [by split|].
  destruct (negb _ || negb _); [by split|].
  destruct reply as [| |[|] [g'|]]; cbn; split; try done.
  intros _. eauto.
Qed.

Lemma makeMove_updates_witness :
  UseGameState.isLoading
    (fst (UseGameState.makeMove
            {| UseGameState.socket := true; UseGameState.isConnected := true;
               UseGameState.matchId := Some "m1"%string;
               UseGameState.client := true; UseGameState.session := true |}
            {| UseGameState.gameState := Some (playing midGame O 3 100);
               UseGameState.isLoading := true; UseGameState.error := None |}
            1 1 UseGameState.RpcThrows)) = false.
Proof.
  apply (proj2 (makeMove_updates _ _ 1 1 UseGameState.RpcThrows)).
  cbn. discriminate.
Defined.

(** ** The matchmaking hook *)

Lemma matched_state_has_match_id_step (h : UseMatchmaking.Hook) (ev : UseMatchmaking.Step) :
  (UseMatchmaking.matchmakingState h = UseMatchmaking.MATCHED ->
   is_Some (UseMatchmaking.matchId h)) ->
  UseMatchmaking.matchmakingState (UseMatchmaking.step h ev) = UseMatchmaking.MATCHED ->
  is_Some (UseMatchmaking.matchId (UseMatchmaking.step h ev)).
Proof.
  intros Hinv.
  destruct ev as [[id|]|socket isConnected|[t|message]|[|]|]; cbn;
    try discriminate; try assumption; eauto.
  unfold UseMatchmaking.findMatchStart.
  destruct (negb socket || negb isConnected); cbn; [assumption|discriminate].
Qed.

(** X17.  Whatever steps of the matchmaking hook run, and in whatever
    order their asynchronous halves are taken, the state MATCHED always
    comes with a match id: from the initial hook, no sequence of
    [findMatch], [cancelMatchmaking], [reset] and matchmaker events
    reaches MATCHED with [matchId] null. *)
Theorem matched_state_has_match_id (evs : list UseMatchmaking.Step) :
  UseMatchmaking.matchmakingState (UseMatchmaking.steps UseMatchmaking.initial evs)
  = UseMatchmaking.MATCHED ->
  is_Some (UseMatchmaking.matchId (UseMatchmaking.steps UseMatchmaking.initial evs)).
Proof.
  unfold UseMatchmaking.steps.
  induction evs as [|ev evs IH] using rev_ind; [discriminate|].
  rewrite fold_left_app. cbn [fold_left]. by apply matched_state_has_match_id_step.
Qed.

Lemma matched_state_has_match_id_witness :
  is_Some (UseMatchmaking.matchId
             (UseMatchmaking.steps UseMatchmaking.initial
                [ UseMatchmaking.FindStart true true;
                  UseMatchmaking.FindDone (UseMatchmaking.Ticket "t1");
                  UseMatchmaking.Matched (Some "m1"%string);
                  UseMatchmaking.CancelDone false ])).
Proof.
  apply matched_state_has_match_id. reflexivity.
Defined.

(** X18.  The update from the RPC answer and the broadcast of the same
    state agree: when [makeMove] has sent its call and the answer is a
    success with a state, a GAME_STATE, MOVE_ACCEPTED, PLAYER_JOINED or
    GAME_OVER message carrying that state leaves the hook as it is. *)
Theorem broadcast_after_accepted_move
    (conn : UseGameState.Connection) (h : UseGameState.Hook) (r c : Z)
    (g' : GameState) (t : ServerMessageType) :
  snd (UseGameState.makeMove conn h r c (UseGameState.Payload true (Some g'))) <> [] ->
  t ∈ [ GAME_STATE; MOVE_ACCEPTED; PLAYER_JOINED; GAME_OVER ] ->
  UseGameState.handleMessage
    (fst (UseGameState.makeMove conn h r c (UseGameState.Payload true (Some g'))))
    (UseGameState.Parsed {| UseGameState.type := Some t;
                            UseGameState.data := UseGameState.StateData g' |})
  = fst (UseGameState.makeMove conn h r c (UseGameState.Payload true (Some g'))).
Proof.
  unfold UseGameState.makeMove.
  destruct (negb _ || negb _ || negb _); [done|].
  destruct (UseGameState.gameState h) as [g|]; [|done].
  destruct (negb (bool_decide _)); [done|].
  destruct (negb _ || negb _); [done|].
  intros _ Ht. rewrite !elem_of_cons, elem_of_nil in Ht.
  destruct_or!; try contradiction; subst t; reflexivity.
Qed.

Lemma broadcast_after_accepted_move_witness :
  UseGameState.handleMessage
    (fst (UseGameState.makeMove
            {| UseGameState.socket := true; UseGameState.isConnected := true;
               UseGameState.matchId := Some "m1"%string;
               UseGameState.client := true; UseGameState.session := true |}
            {| UseGameState.gameState := Some (playing beforeHorizontalWin X 4 30);
               UseGameState.isLoading := false; UseGameState.error := None |}
            0 2 (UseGameState.Payload true (Some finishedMatch))))
    (UseGameState.Parsed {| UseGameState.type := Some GAME_OVER;
                            UseGameState.data := UseGameState.StateData finishedMatch |})
  = fst (UseGameState.makeMove
           {| UseGameState.socket := true; UseGameState.isConnected := true;
              UseGameState.matchId := Some "m1"%string;
              UseGameState.client := true; UseGameState.session := true |}
           {| UseGameState.gameState := Some (playing beforeHorizontalWin X 4 30);
              UseGameState.isLoading := false; UseGameState.error := None |}
           0 2 (UseGameState.Payload true (Some finishedMatch))).
Proof.
  apply broadcast_after_accepted_move.
  - cbn. discriminate.
  - rewrite !elem_of_cons. auto.
Defined.
